(** * k3d registry lifecycle (cli/registry.go)

    A shallow embedding of the registry part of k3d: the mirror
    configuration written into the cluster nodes, the lookup of the shared
    registry container, its creation or reuse, and the teardown that
    removes the registry once no cluster network is attached to it.

    Every call that leaves cli/registry.go (the Docker client, the helpers
    of the other files of the package, the yaml and mergo libraries, the
    logger) is an operation of the type [op]; a Go function is a program
    over these operations, run against an arbitrary runtime.  The run
    records each call together with what the runtime answered, so that the
    statements below speak about the calls the code makes. *)

From Stdlib Require Import Ascii String ZArith.
From stdpp Require Import base option list strings pretty gmap.

Local Open Scope string_scope.
Local Open Scope Z_scope.
Local Open Scope list_scope.

(** ** Go values *)

(** The line feed of the Go format strings. *)
Definition nl : string := String "010"%char EmptyString.

(** Go's [error].  An error built by [fmt.Errorf] with the verb [%w] keeps
    the error it wraps; every other error is a message only. *)
Inductive error : Type :=
| errorString (msg : string)
| wrapError (msg : string) (err : error).

(** [err.Error()] *)
Definition Error (e : error) : string :=
  match e with
  | errorString msg => msg
  | wrapError msg _ => msg
  end.

(** [errors.Unwrap] *)
Definition Unwrap (e : error) : option error :=
  match e with
  | errorString _ => None
  | wrapError _ err => Some err
  end.

(** [fmt.Errorf(prefix + "%w", err)] *)
Definition Errorf_w (prefix : string) (err : error) : error :=
  wrapError (prefix +:+ Error err) err.

(** [fmt.Errorf(prefix + "%+v", err)]: the text only, nothing is wrapped. *)
Definition Errorf_v (prefix : string) (err : error) : error :=
  errorString (prefix +:+ Error err).

Global Instance error_eq_dec : EqDecision error.
Proof. solve_decision. Defined.

(** [%d] and [strconv.Itoa] of a Go [int]. *)
Definition Itoa (n : Z) : string := pretty n.

(** ** Constants of registry.go *)

Definition defaultRegistryContainerName : string := "k3d-registry".
Definition defaultRegistryImage : string := "registry:2".
Definition defaultRegistryPort : Z := 5000.
Definition defaultFullRegistriesPath : string := "/etc/rancher/k3s/registries.yaml".
Definition defaultRegistryMountPath : string := "/var/lib/registry".
Definition defaultDockerHubAddress : string := "docker.io".
Definition defaultDockerRegistryHubAddress : string := "registry-1.docker.io".

Definition defaultRegistryContainerLabels : gmap string string :=
  <["app" := "k3d"]> (<["component" := "registry"]> ∅).

Definition defaultRegistryVolumeLabels : gmap string string :=
  <["app" := "k3d"]> (<["component" := "registry"]> (<["managed" := "true"]> ∅)).

(** ** Data *)

(** A decoded YAML value held by an [interface{}] entry of a registries
    file, kept as its YAML text: registry.go never looks inside one. *)
Record any : Type := mkAny { yamlText : string }.

(** [type Mirror struct] *)
Record Mirror : Type := mkMirror { Endpoints : list string }.

Global Instance Mirror_eq_dec : EqDecision Mirror.
Proof. solve_decision. Defined.

(** [type Registry struct].  A Go map is [None] when it is nil: the code
    tests [len(privRegistries.Mirrors) == 0] and allocates a map then. *)
Record Registry : Type := mkRegistry {
  Mirrors : option (gmap string Mirror);
  Configs : option (gmap string any);
  Auths : option (gmap string any)
}.

(** [&Registry{}] *)
Definition emptyRegistry : Registry :=
  {| Mirrors := None; Configs := None; Auths := None |}.

(** [len(m)] of a possibly nil map *)
Definition lenMap {V} (m : option (gmap string V)) : nat :=
  match m with
  | None => 0%nat
  | Some m => size m
  end.

(** [m[k]] of a possibly nil map, as a lookup *)
Definition getMap {V} (m : option (gmap string V)) (k : string) : option V :=
  match m with
  | None => None
  | Some m => m !! k
  end.

(** [nat.PortBinding] *)
Record PortBinding : Type := mkPortBinding { HostIP : string; HostPort : string }.

Global Instance PortBinding_eq_dec : EqDecision PortBinding.
Proof. solve_decision. Defined.

(** [type PublishedPorts struct], the result of [CreatePublishedPorts]. *)
Record PublishedPorts : Type := mkPublishedPorts {
  pp_ExposedPorts : gset string;
  pp_PortBindings : gmap string (list PortBinding)
}.

(** [container.RestartPolicy] *)
Record RestartPolicy : Type := mkRestartPolicy {
  rp_Name : string;
  rp_MaximumRetryCount : Z
}.

(** [container.HostConfig], with the fields registry.go reads or writes. *)
Record HostConfig : Type := mkHostConfig {
  Binds : list string;
  PortBindings : gmap string (list PortBinding);
  hc_RestartPolicy : RestartPolicy;
  Privileged : bool;
  Init : option bool
}.

(** [container.Config], with the fields registry.go sets. *)
Record Config : Type := mkConfig {
  Hostname : string;
  Image : string;
  ExposedPorts : gset string;
  cfg_Labels : gmap string string;
  Env : list string
}.

(** [network.EndpointSettings] and [network.NetworkingConfig] *)
Record EndpointSettings : Type := mkEndpointSettings { Aliases : list string }.

Record NetworkingConfig : Type := mkNetworkingConfig {
  EndpointsConfig : gmap string EndpointSettings
}.

(** [types.Volume] *)
Record Volume : Type := mkVolume {
  vol_Name : string;
  vol_Labels : gmap string string
}.

(** [types.Container], an entry of the answer of [ContainerList]. *)
Record Container : Type := mkContainer {
  ID : string;
  ct_Name : string;
  ct_Labels : gmap string string
}.

(** [filters.Args]: a set of (key, value) pairs. *)
Definition Args : Type := gset (string * string).

(** [types.ContainerListOptions] *)
Record ContainerListOptions : Type := mkContainerListOptions {
  Filters : Args;
  All : bool
}.

(** [ClusterSpec], with the fields registry.go uses.  ([spec.Volumes] is
    only overwritten in the local copy and never read.) *)
Record ClusterSpec : Type := mkClusterSpec {
  ClusterName : string;
  RegistryEnabled : bool;
  RegistryCacheEnabled : bool;
  RegistryName : string;
  RegistryPort : Z;
  RegistryVolume : string;
  RegistriesFile : string;
  AutoRestart : bool;
  spec_HostConfig : HostConfig
}.

(** logrus levels used by the file *)
Inductive Level : Type := InfoLevel | WarnLevel | ErrorLevel | FatalLevel.

Global Instance Level_eq_dec : EqDecision Level.
Proof. solve_decision. Defined.

(** ** Calls that leave registry.go

    The index of an operation is what the call returns; a Go result
    [(v, err)] is the pair of the value and the possibly nil error. *)
Inductive op : Type -> Type :=
(* logger *)
| Log (lvl : Level) (msg : string) : op unit
(* standard library and third-party packages *)
| ReadFile (filename : string) : op (list Byte.byte * option error)
| YamlUnmarshal (data : list Byte.byte) (into : Registry) : op (Registry * option error)
| YamlMarshal (doc : Registry) : op (list Byte.byte * option error)
| TimeNowFormat (layout : string) : op string
| MergoMerge (dst src : HostConfig) : op (HostConfig * option error)
| NewClientWithOpts : op (option error)
| ContainerList (options : ContainerListOptions) : op (list Container * option error)
(* helpers of the other files of the package *)
| copyToContainer (ID : string) (dstPath : string) (content : list Byte.byte) : op (option error)
| CreatePublishedPorts (specs : list string) : op (PublishedPorts * option error)
| startContainer (ID : string) : op (option error)
| createContainer (config : Config) (hostConfig : HostConfig)
    (networkingConfig : NetworkingConfig) (containerName : string) : op (string * option error)
| removeContainer (ID : string) : op (option error)
| connectContainerToNetwork (ID networkID : string) (aliases : list string) : op (option error)
| disconnectContainerFromNetwork (ID networkID : string) : op (option error)
| getContainerNetworks (ID : string) : op (list string * option error)
| getVolumeMountedIn (ID : string) (mountPath : string) : op (string * option error)
| getVolume (volName : string) (volLabels : gmap string string) : op (option Volume * option error)
| createVolume (volName : string) (volLabels : gmap string string) : op (option Volume * option error)
| deleteVolume (volName : string) : op (option error).

(** A Go function body: it returns, calls out and goes on with the answer,
    or ends the process ([os.Exit], reached through [log.Fatalf]). *)
Inductive prog (A : Type) : Type :=
| Ret (a : A)
| Vis {X : Type} (o : op X) (k : X -> prog A)
| Exit (code : Z).

Arguments Ret {A} a.
Arguments Vis {A X} o k.
Arguments Exit {A} code.

Fixpoint bind {A B} (p : prog A) (f : A -> prog B) : prog B :=
  match p with
  | Ret a => f a
  | Vis o k => Vis o (fun x => bind (k x) f)
  | Exit code => Exit code
  end.

Definition call {X} (o : op X) : prog X := Vis o Ret.

Declare Scope prog_scope.
Delimit Scope prog_scope with prog.
Notation "'let*' x ':=' p 'in' q" := (bind p (fun x => q))
  (at level 10, x pattern, p at level 100, q at level 200) : prog_scope.
Notation "p ;;; q" := (bind p (fun _ => q))
  (at level 100, right associativity) : prog_scope.
Local Open Scope prog_scope.

(** [log.Printf], [log.Println]: level info. *)
Definition log_Printf (msg : string) : prog unit := call (Log InfoLevel msg).
(** [log.Warnf] *)
Definition log_Warnf (msg : string) : prog unit := call (Log WarnLevel msg).
(** [log.Fatalf]: the entry is written, then the process exits with 1. *)
Definition log_Fatalf {A} (msg : string) : prog A :=
  Vis (Log FatalLevel msg) (fun _ => Exit 1).

(** ** Running a program against a runtime *)

(** One call and its answer. *)
Inductive event : Type :=
| Ev {X : Type} (o : op X) (x : X).

(** How a run ends. *)
Inductive outcome (A : Type) : Type :=
| Returned (a : A)
| Exited (code : Z).

Arguments Returned {A} a.
Arguments Exited {A} code.

(** A runtime answers every call from its state [W]. *)
Definition handler (W : Type) : Type := forall X, op X -> W -> X * W.

Record result (W A : Type) : Type := mkResult {
  res_out : outcome A;
  res_world : W;
  res_trace : list event
}.

Arguments mkResult {W A} _ _ _.
Arguments res_out {W A} _.
Arguments res_world {W A} _.
Arguments res_trace {W A} _.

Definition record_event {W A} (e : event) (r : result W A) : result W A :=
  mkResult (res_out r) (res_world r) (e :: res_trace r).

Fixpoint run {W A} (h : handler W) (w : W) (p : prog A) : result W A :=
  match p with
  | Ret a => mkResult (Returned a) w []
  | Exit code => mkResult (Exited code) w []
  | Vis o k =>
      let xw := h _ o w in
      record_event (Ev o (fst xw)) (run h (snd xw) (k (fst xw)))
  end.

(** ** The functions of registry.go *)

Section RegistryGo.

(** [k3dNetworkName] (another file of the package) and the quoting of the
    verb [%q]. *)
Variable k3dNetworkName : string -> string.
Variable Quote : string -> string.

(** [cFilter.Add(key, value)] *)
Definition Add (key value : string) (a : Args) : Args := {[ (key, value) ]} ∪ a.

(** [for k, v := range src { dst[k] = v }] *)
Definition copyLabels (src dst : gmap string string) : gmap string string :=
  map_fold (fun k v acc => <[k := v]> acc) dst src.

(** Lines 110-126 of [writeRegistriesConfigInContainer]: what the block
    [if spec.RegistryEnabled { ... }] does to [privRegistries]. *)
Definition addRegistryMirrors (spec : ClusterSpec) (privRegistries : Registry) : Registry :=
  let registryInternalAddress := RegistryName spec +:+ ":" +:+ Itoa defaultRegistryPort in
  let registryExternalAddress := RegistryName spec +:+ ":" +:+ Itoa (RegistryPort spec) in
  if RegistryEnabled spec then
    let mirrors : gmap string Mirror :=
      if decide (lenMap (Mirrors privRegistries) = 0%nat) then ∅
      else default ∅ (Mirrors privRegistries) in
    (* then add the private registry *)
    let mirrors :=
      <[registryExternalAddress :=
          {| Endpoints := ["http://" +:+ registryInternalAddress] |}]> mirrors in
    (* with the cache, redirect all the PULLs to the Docker Hub to the local registry *)
    let mirrors :=
      if RegistryCacheEnabled spec then
        <[defaultDockerHubAddress :=
            {| Endpoints := ["http://" +:+ registryInternalAddress] |}]> mirrors
      else mirrors in
    {| Mirrors := Some mirrors;
       Configs := Configs privRegistries;
       Auths := Auths privRegistries |}
  else privRegistries.

(** Lines 96-108 of [writeRegistriesConfigInContainer]: the document the
    function starts from, or the error it returns at once. *)
Definition loadBaseRegistries (spec : ClusterSpec) : prog (Registry + error) :=
  let privRegistries := emptyRegistry in
  (* load the base registry file *)
  if (0 <? String.length (RegistriesFile spec))%nat then
    log_Printf ("Using registries definitions from " +:+ Quote (RegistriesFile spec)
                +:+ "..." +:+ nl);;;
    let* (privRegistryFile, err) := call (ReadFile (RegistriesFile spec)) in
    match err with
    | Some e => Ret (inr e) (* the file must exist at this point *)
    | None =>
        let* (privRegistries, err) := call (YamlUnmarshal privRegistryFile privRegistries) in
        match err with
        | Some e => Ret (inr e)
        | None => Ret (inl privRegistries)
        end
    end
  else Ret (inl privRegistries).

(** [writeRegistriesConfigInContainer] creates a valid registries
    configuration file in a container. *)
Definition writeRegistriesConfigInContainer (spec : ClusterSpec) (ID : string)
  : prog (option error) :=
  let* loaded := loadBaseRegistries spec in
  match loaded with
  | inr e => Ret (Some e)
  | inl privRegistries =>
      let privRegistries := addRegistryMirrors spec privRegistries in
      let* (d, err) := call (YamlMarshal privRegistries) in
      match err with
      | Some e => Ret (Some e)
      | None => call (copyToContainer ID defaultFullRegistriesPath d)
      end
  end.

(** [getRegistryContainer] looks for the registry container. *)
Definition getRegistryContainer : prog (string * option error) :=
  let* err := call NewClientWithOpts in
  match err with
  | Some e => Ret ("", Some (Errorf_v ("Couldn't create docker client" +:+ nl) e))
  | None =>
      let cFilter : Args := ∅ in
      let cFilter := Add "name" defaultRegistryContainerName cFilter in
      (* filter with the standard list of labels of our registry *)
      let cFilter :=
        map_fold (fun k v acc => Add "label" (k +:+ "=" +:+ v) acc)
                 cFilter defaultRegistryContainerLabels in
      let* (containers, err) :=
        call (ContainerList {| Filters := cFilter; All := true |}) in
      match err with
      | Some e => Ret ("", Some (Errorf_w " Couldn't list containers: " e))
      | None =>
          match containers with
          | [] => Ret ("", None)
          | c :: _ => Ret (ID c, None)
          end
      end
  end.

(** [connectRegistryToNetwork] connects the registry container to a given
    network. *)
Definition connectRegistryToNetwork (ID networkID : string) (aliases : list string)
  : prog (option error) :=
  let* err := call (connectContainerToNetwork ID networkID aliases) in
  match err with
  | Some e => Ret (Some e)
  | None => Ret None
  end.

(** The creation branch of [createRegistry] (lines 160-254), reached when
    no registry container was found. *)
Definition createNewRegistry (spec : ClusterSpec) (netName : string)
  : prog (string * option error) :=
  log_Printf ("Creating Registry as " +:+ RegistryName spec +:+ ":"
              +:+ Itoa (RegistryPort spec) +:+ "..." +:+ nl);;;
  (* add a standard list of labels to our registry *)
  let containerLabels := copyLabels defaultRegistryContainerLabels ∅ in
  let* now := call (TimeNowFormat "2006-01-02 15:04:05") in
  let containerLabels := <["created" := now]> containerLabels in
  let containerLabels := <["hostname" := RegistryName spec]> containerLabels in
  let registryPortSpec :=
    "0.0.0.0:" +:+ Itoa (RegistryPort spec) +:+ ":" +:+ Itoa defaultRegistryPort +:+ "/tcp" in
  let* (registryPublishedPorts, err) := call (CreatePublishedPorts [registryPortSpec]) in
  match err with
  | Some e =>
      log_Fatalf ("Error: failed to parse port specs " +:+ registryPortSpec +:+ " " +:+ nl
                  +:+ Error e)
  | None =>
      let hostConfig :=
        {| Binds := [];
           PortBindings := pp_PortBindings registryPublishedPorts;
           hc_RestartPolicy := {| rp_Name := ""; rp_MaximumRetryCount := 0 |};
           Privileged := true;
           Init := Some true |} in
      (* merge clusterSpec hostConfig on top of the local hostConfig *)
      let* (hostConfig, err) := call (MergoMerge hostConfig (spec_HostConfig spec)) in
      match err with
      | Some e => Ret ("", Some e)
      | None =>
          let hostConfig :=
            if AutoRestart spec then
              {| Binds := Binds hostConfig;
                 PortBindings := PortBindings hostConfig;
                 hc_RestartPolicy :=
                   {| rp_Name := "unless-stopped";
                      rp_MaximumRetryCount :=
                        rp_MaximumRetryCount (hc_RestartPolicy hostConfig) |};
                 Privileged := Privileged hostConfig;
                 Init := Init hostConfig |}
            else hostConfig in
          let* volumeStep :=
            (if decide (RegistryVolume spec ≠ "") then
               let* (vol, err) := call (getVolume (RegistryVolume spec) ∅) in
               match err with
               | Some e =>
                   Ret (inr (Errorf_w (" Couldn't check if volume " +:+ RegistryVolume spec
                                       +:+ " exists: ") e))
               | None =>
                   let* created :=
                     match vol with
                     | Some _ =>
                         log_Printf ("Using existing volume " +:+ RegistryVolume spec
                                     +:+ " for the Registry" +:+ nl);;;
                         Ret None
                     | None =>
                         log_Printf ("Creating Registry volume " +:+ RegistryVolume spec
                                     +:+ "..." +:+ nl);;;
                         (* assign some labels (so we can recognize the volume later on) *)
                         let volLabels : gmap string string :=
                           <["registry-port" := Itoa (RegistryPort spec)]>
                             (<["registry-name" := RegistryName spec]> ∅) in
                         let volLabels := copyLabels defaultRegistryVolumeLabels volLabels in
                         let* (_, err) := call (createVolume (RegistryVolume spec) volLabels) in
                         match err with
                         | Some e =>
                             Ret (Some (Errorf_w (" Couldn't create volume "
                                                  +:+ RegistryVolume spec
                                                  +:+ " for registry: ") e))
                         | None => Ret None
                         end
                     end in
                   match created with
                   | Some e => Ret (inr e)
                   | None =>
                       let mount := RegistryVolume spec +:+ ":" +:+ defaultRegistryMountPath in
                       Ret (inl {| Binds := [mount];
                                   PortBindings := PortBindings hostConfig;
                                   hc_RestartPolicy := hc_RestartPolicy hostConfig;
                                   Privileged := Privileged hostConfig;
                                   Init := Init hostConfig |})
                   end
               end
             else Ret (inl hostConfig)) in
          match volumeStep with
          | inr e => Ret ("", Some e)
          | inl hostConfig =>
              (* connect the registry to this k3d network *)
              let networkingConfig :=
                {| EndpointsConfig :=
                     {[ netName := {| Aliases := [RegistryName spec] |} ]} |} in
              let config :=
                {| Hostname := RegistryName spec;
                   Image := defaultRegistryImage;
                   ExposedPorts := pp_ExposedPorts registryPublishedPorts;
                   cfg_Labels := containerLabels;
                   Env := [] |} in
              (* we can enable the cache in the Registry by just adding a new env variable *)
              let* config :=
                (if RegistryCacheEnabled spec then
                   log_Printf ("Activating pull-through cache to Docker Hub" +:+ nl);;;
                   let cacheConfigKey := "REGISTRY_PROXY_REMOTEURL" in
                   let cacheConfigValues := "https://" +:+ defaultDockerRegistryHubAddress in
                   Ret {| Hostname := Hostname config;
                          Image := Image config;
                          ExposedPorts := ExposedPorts config;
                          cfg_Labels := cfg_Labels config;
                          Env := [cacheConfigKey +:+ "=" +:+ cacheConfigValues] |}
                 else Ret config) in
              let* (id, err) :=
                call (createContainer config hostConfig networkingConfig
                                      defaultRegistryContainerName) in
              match err with
              | Some e =>
                  Ret ("", Some (Errorf_w (" Couldn't create registry container "
                                           +:+ defaultRegistryContainerName +:+ nl) e))
              | None =>
                  let* err := call (startContainer id) in
                  match err with
                  | Some e =>
                      Ret ("", Some (Errorf_w (" Couldn't start container "
                                               +:+ defaultRegistryContainerName +:+ nl) e))
                  | None => Ret (id, None)
                  end
              end
          end
      end
  end.

(** [createRegistry] creates a registry, or connect the k3d network to an
    existing one. *)
Definition createRegistry (spec : ClusterSpec) : prog (string * option error) :=
  let netName := k3dNetworkName (ClusterName spec) in
  (* first, check we have not already started a registry *)
  let* (cid, err) := getRegistryContainer in
  match err with
  | Some e => Ret ("", Some e)
  | None =>
      if decide (cid ≠ "") then
        log_Printf ("Registry already present: ensuring that it's running and connecting it to the '"
                    +:+ netName +:+ "' network..." +:+ nl);;;
        let* err := call (startContainer cid) in
        match err with
        | Some _ =>
            log_Warnf ("Failed to start registry container. Try starting it manually via `docker start "
                       +:+ cid +:+ "`")
        | None => Ret tt
        end;;;
        let* err := connectRegistryToNetwork cid netName [RegistryName spec] in
        match err with
        | Some e => Ret ("", Some e)
        | None => Ret (cid, None)
        end
      else createNewRegistry spec netName
  end.

(** The removal branch of [disconnectRegistryFromNetwork] (lines 315-342),
    taken when no network is attached any more. *)
Definition removeRegistry (cid : string) (keepRegistryVolume : bool) : prog (option error) :=
  log_Printf ("...Removing the Registry" +:+ nl);;;
  let* (volName, err) := call (getVolumeMountedIn cid defaultRegistryMountPath) in
  match err with
  | Some _ => log_Printf ("...warning: could not detect registry volume" +:+ nl)
  | None => Ret tt
  end;;;
  let* err := call (removeContainer cid) in
  match err with
  | Some e => log_Printf (Error e +:+ nl)
  | None => Ret tt
  end;;;
  (* check if the volume mounted in /var/lib/registry was managed by us. In that
     case (and only if the user does not want to keep the volume alive), delete
     the registry volume *)
  if decide (volName ≠ "") then
    let* (vol, err) := call (getVolume volName defaultRegistryVolumeLabels) in
    match err with
    | Some e =>
        Ret (Some (Errorf_w (" Couldn't remove volume for registry "
                             +:+ defaultRegistryContainerName +:+ nl) e))
    | None =>
        match vol with
        | Some _ =>
            if keepRegistryVolume then
              log_Printf ("...(keeping the Registry volume " +:+ volName +:+ ")" +:+ nl);;;
              Ret None
            else
              log_Printf ("...Removing the Registry volume " +:+ volName +:+ nl);;;
              let* err := call (deleteVolume volName) in
              match err with
              | Some e =>
                  Ret (Some (Errorf_w (" Couldn't remove volume for registry "
                                       +:+ defaultRegistryContainerName +:+ nl) e))
              | None => Ret None
              end
        | None => Ret None
        end
    end
  else Ret None.

(** [disconnectRegistryFromNetwork] disconnects the Registry from a
    Network; if the Registry container is not connected to any more
    networks, it is stopped. *)
Definition disconnectRegistryFromNetwork (name : string) (keepRegistryVolume : bool)
  : prog (option error) :=
  (* disconnect the registry from this cluster's network *)
  let netName := k3dNetworkName name in
  let* (cid, err) := getRegistryContainer in
  match err with
  | Some e => Ret (Some e)
  | None =>
      if decide (cid = "") then Ret None
      else
        log_Printf ("...Disconnecting Registry from the " +:+ netName +:+ " network" +:+ nl);;;
        let* err := call (disconnectContainerFromNetwork cid netName) in
        match err with
        | Some e => Ret (Some e)
        | None =>
            (* check if the registry is not connected to any other networks.
               in that case, we can safely stop the registry container *)
            let* (networks, err) := call (getContainerNetworks cid) in
            match err with
            | Some e => Ret (Some e)
            | None =>
                if decide (length networks = 0%nat) then removeRegistry cid keepRegistryVolume
                else Ret None
            end
        end
  end.

End RegistryGo.

(** ** Reading a trace *)

(** The part of a trace selected by a partial projection of its events. *)
Definition collect {B} (f : event -> option B) (tr : list event) : list B := omap f tr.

Definition ev_removeContainer (e : event) : option string :=
  match e with
  | Ev (removeContainer cid) _ => Some cid
  | _ => None
  end.

Definition ev_deleteVolume (e : event) : option string :=
  match e with
  | Ev (deleteVolume v) _ => Some v
  | _ => None
  end.

Definition ev_createContainer (e : event) : option (string * HostConfig) :=
  match e with
  | Ev (createContainer _ hostConfig _ containerName) _ => Some (containerName, hostConfig)
  | _ => None
  end.

Definition ev_createVolume (e : event) : option string :=
  match e with
  | Ev (createVolume v _) _ => Some v
  | _ => None
  end.

Definition ev_startContainer (e : event) : option string :=
  match e with
  | Ev (startContainer cid) _ => Some cid
  | _ => None
  end.

Definition ev_connect (e : event) : option (string * string * list string) :=
  match e with
  | Ev (connectContainerToNetwork cid net aliases) _ => Some (cid, net, aliases)
  | _ => None
  end.

Definition ev_disconnect (e : event) : option (string * string) :=
  match e with
  | Ev (disconnectContainerFromNetwork cid net) _ => Some (cid, net)
  | _ => None
  end.

Definition ev_merge (e : event) : option (HostConfig * HostConfig) :=
  match e with
  | Ev (MergoMerge dst src) _ => Some (dst, src)
  | _ => None
  end.

(** A successful merge: the destination, the source and the merged
    configuration answered. *)
Definition ev_merged (e : event) : option (HostConfig * HostConfig * HostConfig) :=
  match e with
  | @Ev X o x =>
      match o in op X return X -> option (HostConfig * HostConfig * HostConfig) with
      | MergoMerge dst src =>
          fun x => match snd x with None => Some (dst, src, fst x) | Some _ => None end
      | _ => fun _ => None
      end x
  end.

(** The port bindings answered by a successful [CreatePublishedPorts]. *)
Definition ev_published (e : event) : option PublishedPorts :=
  match e with
  | @Ev X o x =>
      match o in op X return X -> option PublishedPorts with
      | CreatePublishedPorts _ =>
          fun x => match snd x with None => Some (fst x) | Some _ => None end
      | _ => fun _ => None
      end x
  end.

Definition ev_marshal (e : event) : option Registry :=
  match e with
  | Ev (YamlMarshal doc) _ => Some doc
  | _ => None
  end.

Definition ev_log (e : event) : option (Level * string) :=
  match e with
  | Ev (Log lvl msg) _ => Some (lvl, msg)
  | _ => None
  end.

(** The networks answered by a successful [getContainerNetworks]. *)
Definition ev_networks (e : event) : option (string * list string) :=
  match e with
  | @Ev X o x =>
      match o in op X return X -> option (string * list string) with
      | getContainerNetworks cid =>
          fun x => match snd x with None => Some (cid, fst x) | Some _ => None end
      | _ => fun _ => None
      end x
  end.

(** The volume mounted at a path, as answered by [getVolumeMountedIn]
    (the name is used whether or not an error came with it). *)
Definition ev_mounted (e : event) : option (string * string * string) :=
  match e with
  | @Ev X o x =>
      match o in op X return X -> option (string * string * string) with
      | getVolumeMountedIn cid mountPath => fun x => Some (cid, mountPath, fst x)
      | _ => fun _ => None
      end x
  end.

(** The lookups [getVolume] answered with a volume and no error: the name
    and the labels asked for. *)
Definition ev_volumeFound (e : event) : option (string * gmap string string) :=
  match e with
  | @Ev X o x =>
      match o in op X return X -> option (string * gmap string string) with
      | getVolume v labels =>
          fun x => match x with (Some _, None) => Some (v, labels) | _ => None end
      | _ => fun _ => None
      end x
  end.

(** All the lookups [getVolume] made. *)
Definition ev_getVolume (e : event) : option (string * gmap string string) :=
  match e with
  | Ev (getVolume v labels) _ => Some (v, labels)
  | _ => None
  end.

(** The call that answered an error, by the name of the function called. *)
Definition ev_failure (e : event) : option (string * error) :=
  match e with
  | @Ev X o x =>
      match o in op X return X -> option (string * error) with
      | Log _ _ => fun _ => None
      | TimeNowFormat _ => fun _ => None
      | ReadFile _ => fun x => pair "ioutil.ReadFile" <$> snd x
      | YamlUnmarshal _ _ => fun x => pair "yaml.Unmarshal" <$> snd x
      | YamlMarshal _ => fun x => pair "yaml.Marshal" <$> snd x
      | MergoMerge _ _ => fun x => pair "mergo.Merge" <$> snd x
      | NewClientWithOpts => fun x => pair "client.NewClientWithOpts" <$> x
      | ContainerList _ => fun x => pair "docker.ContainerList" <$> snd x
      | copyToContainer _ _ _ => fun x => pair "copyToContainer" <$> x
      | CreatePublishedPorts _ => fun x => pair "CreatePublishedPorts" <$> snd x
      | startContainer _ => fun x => pair "startContainer" <$> x
      | createContainer _ _ _ _ => fun x => pair "createContainer" <$> snd x
      | removeContainer _ => fun x => pair "removeContainer" <$> x
      | connectContainerToNetwork _ _ _ => fun x => pair "connectContainerToNetwork" <$> x
      | disconnectContainerFromNetwork _ _ => fun x => pair "disconnectContainerFromNetwork" <$> x
      | getContainerNetworks _ => fun x => pair "getContainerNetworks" <$> snd x
      | getVolumeMountedIn _ _ => fun x => pair "getVolumeMountedIn" <$> snd x
      | getVolume _ _ => fun x => pair "getVolume" <$> snd x
      | createVolume _ _ => fun x => pair "createVolume" <$> snd x
      | deleteVolume _ => fun x => pair "deleteVolume" <$> x
      end x
  end.

(** The calls that ask the runtime to change a container, a volume or a
    network attachment. *)
Definition mutating (e : event) : bool :=
  match e with
  | Ev (copyToContainer _ _ _) _ => true
  | Ev (startContainer _) _ => true
  | Ev (createContainer _ _ _ _) _ => true
  | Ev (removeContainer _) _ => true
  | Ev (connectContainerToNetwork _ _ _) _ => true
  | Ev (disconnectContainerFromNetwork _ _) _ => true
  | Ev (createVolume _ _) _ => true
  | Ev (deleteVolume _) _ => true
  | _ => false
  end.

Definition removedContainers := collect ev_removeContainer.
Definition deletedVolumes := collect ev_deleteVolume.
Definition createdContainers := collect ev_createContainer.
Definition createdVolumes := collect ev_createVolume.
Definition startedContainers := collect ev_startContainer.
Definition connections := collect ev_connect.
Definition disconnections := collect ev_disconnect.
Definition merges := collect ev_merge.
Definition merged := collect ev_merged.
Definition published := collect ev_published.
Definition emitted := collect ev_marshal.
Definition logged := collect ev_log.
Definition remainingNetworks := collect ev_networks.
Definition mountedVolumes := collect ev_mounted.
Definition volumesFound := collect ev_volumeFound.
Definition volumeLookups := collect ev_getVolume.
Definition failures := collect ev_failure.
Definition mutations := collect (fun e => if mutating e then Some e else None).

(** The warnings of a trace. *)
Definition warnings (tr : list event) : list string :=
  omap (fun l : Level * string => if decide (fst l = WarnLevel) then Some (snd l) else None)
       (logged tr).

(** The result of a second run placed after a first one. *)
Definition after {W A B} (r : result W A) (r' : result W B) : result W B :=
  mkResult (res_out r') (res_world r') (res_trace r ++ res_trace r').

(** The look-up of the registry makes two calls at most, the creation of
    the client and the listing of the containers. *)
Definition lookupOnly (e : event) : bool :=
  match e with
  | Ev NewClientWithOpts _ => true
  | Ev (ContainerList _) _ => true
  | _ => false
  end.

(** The error answered by the first failing call of a given function. *)
Definition failureOf (name : string) (tr : list event) : option error :=
  snd <$> head (filter (fun f : string * error => fst f = name) (failures tr)).

(** [spec] with the pull-through-cache flag set to [b]. *)
Definition withCache (b : bool) (spec : ClusterSpec) : ClusterSpec :=
  {| ClusterName := ClusterName spec;
     RegistryEnabled := RegistryEnabled spec;
     RegistryCacheEnabled := b;
     RegistryName := RegistryName spec;
     RegistryPort := RegistryPort spec;
     RegistryVolume := RegistryVolume spec;
     RegistriesFile := RegistriesFile spec;
     AutoRestart := AutoRestart spec;
     spec_HostConfig := spec_HostConfig spec |}.

(** Whether the character [c] occurs in [s]. *)
Fixpoint occurs (c : ascii) (s : string) : bool :=
  match s with
  | EmptyString => false
  | String a s' => if decide (a = c) then true else occurs c s'
  end.

(** ** More of the trace

    Further projections, for the calls of the look-up, of the creation of
    the container and its volume, and of the delivery of the registries
    file. *)

Definition ev_listed (e : event) : option ContainerListOptions :=
  match e with
  | Ev (ContainerList options) _ => Some options
  | _ => None
  end.

(** The containers answered by a successful [ContainerList]. *)
Definition ev_listAnswer (e : event) : option (list Container) :=
  match e with
  | @Ev X o x =>
      match o in op X return X -> option (list Container) with
      | ContainerList _ =>
          fun x => match snd x with None => Some (fst x) | Some _ => None end
      | _ => fun _ => None
      end x
  end.

(** The arguments of [createContainer]. *)
Definition ev_containerSpec (e : event)
  : option (Config * HostConfig * NetworkingConfig * string) :=
  match e with
  | Ev (createContainer config hostConfig networkingConfig containerName) _ =>
      Some (config, hostConfig, networkingConfig, containerName)
  | _ => None
  end.

(** The identifier answered by a successful [createContainer]. *)
Definition ev_containerMade (e : event) : option string :=
  match e with
  | @Ev X o x =>
      match o in op X return X -> option string with
      | createContainer _ _ _ _ =>
          fun x => match snd x with None => Some (fst x) | Some _ => None end
      | _ => fun _ => None
      end x
  end.

(** The arguments of [createVolume]. *)
Definition ev_volumeSpec (e : event) : option (string * gmap string string) :=
  match e with
  | Ev (createVolume v labels) _ => Some (v, labels)
  | _ => None
  end.

(** The arguments of [copyToContainer]. *)
Definition ev_copied (e : event) : option (string * string * list Byte.byte) :=
  match e with
  | Ev (copyToContainer ID dstPath content) _ => Some (ID, dstPath, content)
  | _ => None
  end.

(** The bytes answered by a successful [yaml.Marshal]. *)
Definition ev_marshalled (e : event) : option (list Byte.byte) :=
  match e with
  | @Ev X o x =>
      match o in op X return X -> option (list Byte.byte) with
      | YamlMarshal _ =>
          fun x => match snd x with None => Some (fst x) | Some _ => None end
      | _ => fun _ => None
      end x
  end.

(** The files read. *)
Definition ev_read (e : event) : option string :=
  match e with
  | Ev (ReadFile filename) _ => Some filename
  | _ => None
  end.

(** The time answered by [time.Now().Format]. *)
Definition ev_clock (e : event) : option string :=
  match e with
  | @Ev X o x =>
      match o in op X return X -> option string with
      | TimeNowFormat _ => fun x => Some x
      | _ => fun _ => None
      end x
  end.

Definition listed := collect ev_listed.
Definition listAnswers := collect ev_listAnswer.
Definition containerSpecs := collect ev_containerSpec.
Definition containersMade := collect ev_containerMade.
Definition volumeSpecs := collect ev_volumeSpec.
Definition copies := collect ev_copied.
Definition marshalledBytes := collect ev_marshalled.
Definition filesRead := collect ev_read.
Definition clock := collect ev_clock.

(** The filter of the look-up: the name of the registry container and its
    two labels, stopped containers included. *)
Definition registryListOptions : ContainerListOptions :=
  {| Filters := {[ ("name", "k3d-registry");
                   ("label", "app=k3d");
                   ("label", "component=registry") ]};
     All := true |}.

(** ** A reference runtime

    Modelled from the spec: the Runtime Adapter (the container, volume and
    network primitives of the other files of the package and of the Docker
    client), which is not part of registry.go.  It is one runtime among
    those the statements quantify over, used to run the code on concrete
    inputs: containers with their attached networks and binds, volumes
    with their labels, and a list of calls made to fail. *)

(** A container of the host. *)
Record HostContainer : Type := mkHostContainer {
  hc_ID : string;
  hc_Name : string;
  hc_Labels : gmap string string;
  hc_Networks : list string;
  hc_Binds : list string;
  hc_Running : bool
}.

Record World : Type := mkWorld {
  w_containers : list HostContainer;
  w_volumes : list Volume;
  (** what the registries file parses to *)
  w_baseDoc : Registry;
  (** the calls that fail, by name *)
  w_faults : list string;
  (** whether disconnecting a network that is not attached is an error *)
  w_strictDisconnect : bool
}.

Definition fault (w : World) (name : string) : option error :=
  if decide (name ∈ w_faults w) then Some (errorString (name +:+ " failed")) else None.

Definition setContainers (w : World) (cs : list HostContainer) : World :=
  mkWorld cs (w_volumes w) (w_baseDoc w) (w_faults w) (w_strictDisconnect w).

Definition setVolumes (w : World) (vs : list Volume) : World :=
  mkWorld (w_containers w) vs (w_baseDoc w) (w_faults w) (w_strictDisconnect w).

(** [s] cut at the first [c]: the part before it and, when [c] occurs, the
    part after it. *)
Fixpoint cut (c : ascii) (s : string) : string * option string :=
  match s with
  | EmptyString => (EmptyString, None)
  | String a s' =>
      if decide (a = c) then (EmptyString, Some s')
      else let r := cut c s' in (String a (fst r), snd r)
  end.

(** Whether [s] is a non-empty string of decimal digits. *)
Definition isNumber (s : string) : bool :=
  negb (String.eqb s "") &&
  forallb (fun a => (48 <=? nat_of_ascii a)%nat && (nat_of_ascii a <=? 57)%nat)
          (list_ascii_of_string s).

(** A port specification [ip:hostPort:containerPort/proto]; the host port
    has to be a number. *)
Definition parsePortSpec (spec : string) : option (string * PortBinding) :=
  match cut ":" spec with
  | (ip, Some rest) =>
      match cut ":" rest with
      | (hostPort, Some port) =>
          if isNumber hostPort then Some (port, mkPortBinding ip hostPort) else None
      | _ => None
      end
  | _ => None
  end.

Fixpoint publishPorts (specs : list string) : option PublishedPorts :=
  match specs with
  | [] => Some (mkPublishedPorts ∅ ∅)
  | s :: specs =>
      match parsePortSpec s, publishPorts specs with
      | Some (port, b), Some pp =>
          Some (mkPublishedPorts ({[ port ]} ∪ pp_ExposedPorts pp)
                  (<[port := b :: default [] (pp_PortBindings pp !! port)]>
                     (pp_PortBindings pp)))
      | _, _ => None
      end
  end.

(** [mergo.Merge(dst, src)] as the library documents it when no option is
    given (the call of registry.go passes none): an attribute of [dst] is
    filled from [src] only where [dst] holds the empty value; maps are
    merged key by key and the keys of [dst] keep their values. *)
Definition mergoMerge (dst src : HostConfig) : HostConfig :=
  {| Binds := match Binds dst with [] => Binds src | _ => Binds dst end;
     PortBindings := PortBindings dst ∪ PortBindings src;
     hc_RestartPolicy :=
       {| rp_Name :=
            if decide (rp_Name (hc_RestartPolicy dst) = "")
            then rp_Name (hc_RestartPolicy src) else rp_Name (hc_RestartPolicy dst);
          rp_MaximumRetryCount :=
            if decide (rp_MaximumRetryCount (hc_RestartPolicy dst) = 0)
            then rp_MaximumRetryCount (hc_RestartPolicy src)
            else rp_MaximumRetryCount (hc_RestartPolicy dst) |};
     Privileged := Privileged dst || Privileged src;
     Init :=
       match Init dst, Init src with
       | None, i => i
       | Some b, Some b' => Some (b || b')
       | Some b, None => Some b
       end |}.

Definition carriesLabels (labels have : gmap string string) : bool :=
  forallb (fun kv : string * string => bool_decide (have !! fst kv = Some (snd kv)))
          (map_to_list labels).

(** A filter of [ContainerList]: the name and every label asked for. *)
Definition matchesFilters (f : Args) (c : HostContainer) : bool :=
  forallb (fun kv : string * string =>
             if decide (fst kv = "name") then bool_decide (snd kv = hc_Name c)
             else if decide (fst kv = "label") then
               match cut "=" (snd kv) with
               | (k, Some v) => bool_decide (hc_Labels c !! k = Some v)
               | (k, None) => bool_decide (is_Some (hc_Labels c !! k))
               end
             else false)
          (elements f).

Definition findContainer (w : World) (id : string) : option HostContainer :=
  head (filter (fun c => hc_ID c = id) (w_containers w)).

Definition updateContainer (w : World) (id : string) (f : HostContainer -> HostContainer)
  : World :=
  setContainers w ((fun c => if decide (hc_ID c = id) then f c else c) <$> w_containers w).

Definition noSuchContainer (id : string) : error :=
  errorString ("No such container: " +:+ id).

(** The volume bound at [mountPath] by a bind [volume:path]. *)
Definition boundAt (mountPath : string) (binds : list string) : string :=
  default "" (head (omap (fun b => match cut ":" b with
                                   | (v, Some p) => if decide (p = mountPath) then Some v else None
                                   | _ => None
                                   end) binds)).

(** The runtime itself. *)
Definition docker : handler World := fun X o w =>
  match o in op X return X * World with
  | Log _ _ => (tt, w)
  | ReadFile _ => ([], fault w "ioutil.ReadFile", w)
  | YamlUnmarshal _ into =>
      match fault w "yaml.Unmarshal" with
      | Some e => (into, Some e, w)
      | None => (w_baseDoc w, None, w)
      end
  | YamlMarshal _ => ([], fault w "yaml.Marshal", w)
  | TimeNowFormat _ => ("2020-05-01 12:00:00", w)
  | MergoMerge dst src =>
      match fault w "mergo.Merge" with
      | Some e => (dst, Some e, w)
      | None => (mergoMerge dst src, None, w)
      end
  | NewClientWithOpts => (fault w "client.NewClientWithOpts", w)
  | ContainerList options =>
      match fault w "docker.ContainerList" with
      | Some e => ([], Some e, w)
      | None =>
          ((fun c => mkContainer (hc_ID c) (hc_Name c) (hc_Labels c))
             <$> filter (fun c => matchesFilters (Filters options) c = true
                                  ∧ (All options = true ∨ hc_Running c = true))
                        (w_containers w),
           None, w)
      end
  | copyToContainer _ _ _ => (fault w "copyToContainer", w)
  | CreatePublishedPorts specs =>
      match fault w "CreatePublishedPorts", publishPorts specs with
      | Some e, _ => (mkPublishedPorts ∅ ∅, Some e, w)
      | None, None => (mkPublishedPorts ∅ ∅, Some (errorString "Invalid port specification"), w)
      | None, Some pp => (pp, None, w)
      end
  | startContainer id =>
      match fault w "startContainer", findContainer w id with
      | Some e, _ => (Some e, w)
      | None, None => (Some (noSuchContainer id), w)
      | None, Some _ =>
          (None, updateContainer w id (fun c =>
                   mkHostContainer (hc_ID c) (hc_Name c) (hc_Labels c) (hc_Networks c)
                                   (hc_Binds c) true))
      end
  | createContainer config hostConfig networkingConfig containerName =>
      match fault w "createContainer" with
      | Some e => ("", Some e, w)
      | None =>
          if decide (containerName ∈ hc_Name <$> w_containers w) then
            ("", Some (errorString ("Conflict. The container name is already in use: "
                                    +:+ containerName)), w)
          else
            let id := "id-" +:+ containerName in
            (id, None,
             setContainers w
               (w_containers w ++
                [mkHostContainer id containerName (cfg_Labels config)
                   (fst <$> map_to_list (EndpointsConfig networkingConfig))
                   (Binds hostConfig) false]))
      end
  | removeContainer id =>
      match fault w "removeContainer", findContainer w id with
      | Some e, _ => (Some e, w)
      | None, None => (Some (noSuchContainer id), w)
      | None, Some _ =>
          (None, setContainers w (filter (fun c => hc_ID c ≠ id) (w_containers w)))
      end
  | connectContainerToNetwork id networkID _ =>
      match fault w "connectContainerToNetwork", findContainer w id with
      | Some e, _ => (Some e, w)
      | None, None => (Some (noSuchContainer id), w)
      | None, Some _ =>
          (None, updateContainer w id (fun c =>
                   mkHostContainer (hc_ID c) (hc_Name c) (hc_Labels c)
                                   (hc_Networks c ++ [networkID]) (hc_Binds c) (hc_Running c)))
      end
  | disconnectContainerFromNetwork id networkID =>
      match fault w "disconnectContainerFromNetwork", findContainer w id with
      | Some e, _ => (Some e, w)
      | None, None => (Some (noSuchContainer id), w)
      | None, Some c =>
          if decide (networkID ∈ hc_Networks c) then
            (None, updateContainer w id (fun c =>
                     mkHostContainer (hc_ID c) (hc_Name c) (hc_Labels c)
                                     (filter (fun n => n ≠ networkID) (hc_Networks c))
                                     (hc_Binds c) (hc_Running c)))
          else if w_strictDisconnect w then
            (Some (errorString ("container " +:+ id +:+ " is not connected to network "
                                +:+ networkID)), w)
          else (None, w)
      end
  | getContainerNetworks id =>
      match fault w "getContainerNetworks", findContainer w id with
      | Some e, _ => ([], Some e, w)
      | None, None => ([], Some (noSuchContainer id), w)
      | None, Some c => (hc_Networks c, None, w)
      end
  | getVolumeMountedIn id mountPath =>
      match fault w "getVolumeMountedIn", findContainer w id with
      | Some e, _ => ("", Some e, w)
      | None, None => ("", Some (noSuchContainer id), w)
      | None, Some c => (boundAt mountPath (hc_Binds c), None, w)
      end
  | getVolume volName volLabels =>
      match fault w "getVolume" with
      | Some e => (None, Some e, w)
      | None =>
          (head (filter (fun v => (volName = "" ∨ vol_Name v = volName)
                                  ∧ carriesLabels volLabels (vol_Labels v) = true)
                        (w_volumes w)),
           None, w)
      end
  | createVolume volName volLabels =>
      match fault w "createVolume" with
      | Some e => (None, Some e, w)
      | None =>
          let v := mkVolume volName volLabels in
          (Some v, None, setVolumes w (w_volumes w ++ [v]))
      end
  | deleteVolume volName =>
      match fault w "deleteVolume" with
      | Some e => (Some e, w)
      | None => (None, setVolumes w (filter (fun v => vol_Name v ≠ volName) (w_volumes w)))
      end
  end.

(** The cluster network of a cluster, as the reference runs name it. *)
Definition refNetworkName (clusterName : string) : string := "k3d-" +:+ clusterName.

(** [%q] for the plain names of the reference runs, which need no escape:
    the name between double quotes. *)
Definition refQuote (s : string) : string :=
  String "034"%char EmptyString +:+ s +:+ String "034"%char EmptyString.

(** A running registry attached to the networks [nets], with the volume
    [vol] (when not empty) bound at the registry mount path. *)
Definition registryContainer (nets : list string) (vol : string) : HostContainer :=
  {| hc_ID := "cafe01";
     hc_Name := defaultRegistryContainerName;
     hc_Labels := <["hostname" := "registry.local"]> defaultRegistryContainerLabels;
     hc_Networks := nets;
     hc_Binds := if decide (vol = "") then [] else [vol +:+ ":" +:+ defaultRegistryMountPath];
     hc_Running := true |}.

Definition emptyWorld : World :=
  {| w_containers := []; w_volumes := []; w_baseDoc := emptyRegistry;
     w_faults := []; w_strictDisconnect := true |}.

Definition noHostConfig : HostConfig :=
  {| Binds := []; PortBindings := ∅;
     hc_RestartPolicy := {| rp_Name := ""; rp_MaximumRetryCount := 0 |};
     Privileged := false; Init := None |}.

Definition refSpec : ClusterSpec :=
  {| ClusterName := "dev";
     RegistryEnabled := true;
     RegistryCacheEnabled := false;
     RegistryName := "registry.local";
     RegistryPort := 5000;
     RegistryVolume := "";
     RegistriesFile := "";
     AutoRestart := false;
     spec_HostConfig := noHostConfig |}.

(** ** Concrete inputs

    The hosts and cluster specs the code is run on further down, with
    [refNetworkName] for [k3dNetworkName]. *)

(** The volume of the registry, as [createRegistry] labels it. *)
Definition registryVolume : Volume :=
  {| vol_Name := "regvol";
     vol_Labels := <["registry-name" := "registry.local"]>
                     (<["registry-port" := "5000"]> defaultRegistryVolumeLabels) |}.

(** A registry that serves the clusters [a] and [b]. *)
Definition sharedWorld : World :=
  setVolumes (setContainers emptyWorld [registryContainer ["k3d-a"; "k3d-b"] "regvol"])
             [registryVolume].

(** A registry that serves the cluster [a] only. *)
Definition lastWorld : World :=
  setVolumes (setContainers emptyWorld [registryContainer ["k3d-a"] "regvol"])
             [registryVolume].

(** The same, the volume at the mount path being one without the labels of
    k3d. *)
Definition foreignVolumeWorld : World :=
  setVolumes (setContainers emptyWorld [registryContainer ["k3d-a"] "regvol"])
             [mkVolume "regvol" ∅].

(** A registry no network is attached to. *)
Definition idleWorld (strict : bool) : World :=
  mkWorld [registryContainer [] ""] [] emptyRegistry [] strict.

Definition withFaults (faults : list string) (w : World) : World :=
  mkWorld (w_containers w) (w_volumes w) (w_baseDoc w) faults (w_strictDisconnect w).

Definition withBaseDoc (doc : Registry) (w : World) : World :=
  mkWorld (w_containers w) (w_volumes w) doc (w_faults w) (w_strictDisconnect w).

Definition teardown (w : World) (cluster : string) (keepRegistryVolume : bool)
  : result World (option error) :=
  run docker w (disconnectRegistryFromNetwork refNetworkName cluster keepRegistryVolume).

(** A registries file that names a mirror for [quay.io] and one for the
    address the registry of [refSpec] is published at. *)
Definition baseDocument : Registry :=
  {| Mirrors := Some (<["quay.io" := {| Endpoints := ["https://mirror.example.org"] |}]>
                        (<["registry.local:5000" :=
                             {| Endpoints := ["https://other.example.org"] |}]> ∅));
     Configs := Some (<["quay.io" := mkAny "tls: {insecure_skip_verify: true}"]> ∅);
     Auths := None |}.

Definition fileSpec : ClusterSpec :=
  {| ClusterName := "dev";
     RegistryEnabled := true;
     RegistryCacheEnabled := false;
     RegistryName := "registry.local";
     RegistryPort := 5000;
     RegistryVolume := "";
     RegistriesFile := "/home/user/.k3d/registries.yaml";
     AutoRestart := false;
     spec_HostConfig := noHostConfig |}.

Definition fileWorld : World := withBaseDoc baseDocument emptyWorld.

(** A registries file that names a mirror for the Docker Hub. *)
Definition hubDocument : Registry :=
  {| Mirrors := Some (<["docker.io" := {| Endpoints := ["https://hub.example.org"] |}]> ∅);
     Configs := None;
     Auths := None |}.

Definition hubWorld : World := withBaseDoc hubDocument emptyWorld.

(** The documents [writeRegistriesConfigInContainer] serializes on the
    host [w]. *)
Definition written (w : World) (spec : ClusterSpec) : list Registry :=
  emitted (res_trace (run docker w
                          (writeRegistriesConfigInContainer refQuote spec "node-1"))).

(** A spec whose port cannot be published. *)
Definition badPortSpec : ClusterSpec :=
  {| ClusterName := "dev";
     RegistryEnabled := true;
     RegistryCacheEnabled := false;
     RegistryName := "registry.local";
     RegistryPort := -1;
     RegistryVolume := "";
     RegistriesFile := "";
     AutoRestart := false;
     spec_HostConfig := noHostConfig |}.

(** A host configuration override that sets [Init] to false and binds the
    registry port to the loopback address. *)
Definition overrideHostConfig : HostConfig :=
  {| Binds := [];
     PortBindings := {[ "5000/tcp" := [mkPortBinding "127.0.0.1" "6000"] ]};
     hc_RestartPolicy := {| rp_Name := "on-failure"; rp_MaximumRetryCount := 3 |};
     Privileged := false;
     Init := Some false |}.

Definition overrideSpec : ClusterSpec :=
  {| ClusterName := "dev";
     RegistryEnabled := true;
     RegistryCacheEnabled := false;
     RegistryName := "registry.local";
     RegistryPort := 5000;
     RegistryVolume := "";
     RegistriesFile := "";
     AutoRestart := false;
     spec_HostConfig := overrideHostConfig |}.

(** A spec with a registry volume, the cache and auto-restart, and an
    override of the host configuration that has binds of its own. *)
Definition fullSpec : ClusterSpec :=
  {| ClusterName := "dev";
     RegistryEnabled := true;
     RegistryCacheEnabled := true;
     RegistryName := "registry.local";
     RegistryPort := 5000;
     RegistryVolume := "regvol";
     RegistriesFile := "";
     AutoRestart := true;
     spec_HostConfig :=
       {| Binds := ["/srv/data:/data"];
          PortBindings := ∅;
          hc_RestartPolicy := {| rp_Name := "on-failure"; rp_MaximumRetryCount := 3 |};
          Privileged := false;
          Init := None |} |}.

(** The run of [createRegistry] that creates the registry of [fullSpec] on
    an empty host. *)
Definition creation : result World (string * option error) :=
  run docker emptyWorld (createRegistry refNetworkName fullSpec).

(** A spec for the same cluster and registry name as [refSpec], and
    nothing else in common. *)
Definition otherPortSpec : ClusterSpec :=
  {| ClusterName := "dev";
     RegistryEnabled := true;
     RegistryCacheEnabled := true;
     RegistryName := "registry.local";
     RegistryPort := 5001;
     RegistryVolume := "othervol";
     RegistriesFile := "";
     AutoRestart := true;
     spec_HostConfig := overrideHostConfig |}.

(** * Properties *)

(** ** Runs of sequenced programs *)

Lemma run_bind {W A B} (h : handler W) (p : prog A) (f : A -> prog B) (w : W) :
  run h w (bind p f) =
  match res_out (run h w p) with
  | Returned a => after (run h w p) (run h (res_world (run h w p)) (f a))
  | Exited code => mkResult (Exited code) (res_world (run h w p)) (res_trace (run h w p))
  end.
Proof.
  revert w. induction p as [a | X o k IH | code]; intros w; simpl.
  - destruct (run h w (f a)); reflexivity.
  - rewrite IH. destruct (res_out (run h (h X o w).2 (k (h X o w).1))); reflexivity.
  - reflexivity.
Qed.

Lemma collect_app {B} (f : event -> option B) (tr tr' : list event) :
  collect f (tr ++ tr') = collect f tr ++ collect f tr'.
Proof. apply omap_app. Qed.

Lemma getRegistryContainer_lookupOnly {W} (h : handler W) (w : W) :
  forallb lookupOnly (res_trace (run h w getRegistryContainer)) = true.
Proof.
  unfold getRegistryContainer. simpl.
  destruct (h _ NewClientWithOpts w) as [[e|] w1]; simpl; [reflexivity|].
  destruct (h _ (ContainerList _) w1) as [[cs [e|]] w2]; simpl; [reflexivity|].
  destruct cs; reflexivity.
Qed.

Lemma collect_lookupOnly {B} (f : event -> option B) (tr : list event) :
  (forall e, lookupOnly e = true -> f e = None) ->
  forallb lookupOnly tr = true -> collect f tr = [].
Proof.
  intros Hf. induction tr as [|e tr IH]; simpl; [reflexivity|].
  intros [He Htr]%andb_prop. unfold collect in *. simpl.
  rewrite (Hf e He). auto.
Qed.

(** A successful look-up answered no error. *)
Lemma getRegistryContainer_no_failure {W} (h : handler W) (w : W) (cid : string) :
  res_out (run h w getRegistryContainer) = Returned (cid, None) ->
  failures (res_trace (run h w getRegistryContainer)) = [].
Proof.
  unfold getRegistryContainer. simpl.
  destruct (h _ NewClientWithOpts w) as [[e|] w1]; simpl; [discriminate|].
  destruct (h _ (ContainerList _) w1) as [[cs [e|]] w2]; simpl; [discriminate|].
  destruct cs; reflexivity.
Qed.

(** Case analysis on what the runtime answers, one call after the other. *)
Ltac answer h :=
  match goal with
  | |- context [h ?X ?o ?w] => is_var w; destruct (h X o w) as [? ?]
  end.

Ltac scrutinee :=
  match goal with
  | |- context [match ?x with (_, _) => _ end] => is_var x; destruct x
  | |- context [match ?x with Some _ => _ | None => _ end] => is_var x; destruct x
  | |- context [match ?x with [] => _ | _ :: _ => _ end] => is_var x; destruct x
  | |- context [match ?x with tt => _ end] => is_var x; destruct x
  | |- context [if ?b then _ else _] => is_var b; destruct b
  | |- context [decide ?P] => destruct (decide P)
  end.

Ltac run_simpl :=
  cbn [run bind call record_event after fst snd res_out res_trace res_world
       log_Printf log_Warnf log_Fatalf connectRegistryToNetwork].

Ltac run_cases h := repeat (run_simpl; first [answer h | scrutinee]); run_simpl; intros ->.

Ltac lookup_free := intros [? [] ?]; simpl; congruence.

Ltac unfold_collectors :=
  unfold failureOf, warnings, removedContainers, deletedVolumes, createdContainers,
    createdVolumes, startedContainers, connections, disconnections, merges, merged,
    published, emitted,
    logged, remainingNetworks, mountedVolumes, volumesFound, volumeLookups, mutations,
    failures in *.

(** For a goal about [bind getRegistryContainer k] whose look-up succeeds
    ([Hloc]): the look-up contributes nothing to what is collected from the
    trace, and what remains is the run of [k]. *)
Ltac after_lookup h w cid Hloc :=
  let HL := fresh "HL" in
  let HF := fresh "HF" in
  let rest := fresh "rest" in
  pose proof (getRegistryContainer_lookupOnly h w) as HL;
  pose proof (getRegistryContainer_no_failure h w cid Hloc) as HF;
  rewrite run_bind, Hloc;
  destruct (run h w getRegistryContainer) as [? ? trL];
  simpl in HL, HF; clear Hloc;
  match goal with
  | |- context [after _ ?r] =>
      set (rest := r);
      cbn [after res_out res_world res_trace];
      unfold_collectors;
      rewrite ?collect_app, ?filter_app, ?HF;
      rewrite ?(collect_lookupOnly _ trL) by (first [lookup_free | exact HL]);
      cbn [app fmap list_fmap filter list_filter head];
      clear HL HF;
      generalize (eq_refl : rest = r); clearbody rest
  end.

(** Names the run a goal speaks of, so that the case analysis goes through
    the program once. *)
Ltac name_run :=
  match goal with
  | |- context [run ?h ?w ?p] =>
      let r := fresh "r" in
      set (r := run h w p); generalize (eq_refl : r = run h w p); clearbody r
  end.

Lemma occurs_app (c : ascii) (s t : string) :
  occurs c (s +:+ String c t) = true.
Proof.
  induction s as [|a s IH]; simpl.
  - destruct (decide (c = c)); congruence.
  - destruct (decide (a = c)); auto.
Qed.

(** An external address [name:port] is never the name of the Docker Hub,
    which has no colon. *)
Lemma external_address_not_hub (name port : string) :
  name +:+ ":" +:+ port <> defaultDockerHubAddress.
Proof.
  intros Heq.
  assert (Hocc : occurs ":" (name +:+ ":" +:+ port) = true) by apply occurs_app.
  rewrite Heq in Hocc. discriminate Hocc.
Qed.

Section Properties.

Context {W : Type} (h : handler W).
Variable k3dNetworkName : string -> string.
Variable Quote : string -> string.

(** C3 (reuse branch).  When the look-up finds a registry container,
    [createRegistry] creates no container and no volume: it starts the
    container found, connects it to the network of the cluster under the
    alias [spec.RegistryName], and returns its identifier unless that
    connection fails.  A failure to start only logs a warning. *)
Theorem createRegistry_reuses_existing (w : W) (spec : ClusterSpec) (cid : string) :
  res_out (run h w getRegistryContainer) = Returned (cid, None) ->
  cid <> "" ->
  let r := run h w (createRegistry k3dNetworkName spec) in
  createdContainers (res_trace r) = [] /\
  createdVolumes (res_trace r) = [] /\
  startedContainers (res_trace r) = [cid] /\
  connections (res_trace r)
    = [(cid, k3dNetworkName (ClusterName spec), [RegistryName spec])] /\
  res_out r = Returned (match failureOf "connectContainerToNetwork" (res_trace r) with
                        | Some e => ("", Some e)
                        | None => (cid, None)
                        end) /\
  (is_Some (failureOf "startContainer" (res_trace r)) ->
   warnings (res_trace r)
     = ["Failed to start registry container. Try starting it manually via `docker start "
        +:+ cid +:+ "`"]).
Proof.
  intros Hloc Hne r. subst r. unfold createRegistry.
  after_lookup h w cid Hloc.
  destruct (decide (cid ≠ "")) as [_|Hn]; [|contradiction].
  run_cases h; simpl.
  all: repeat split; try reflexivity.
  all: intros [? Hs]; discriminate Hs.
Qed.

(** What is left to decide once the runtime has answered every call. *)
Ltac settle_lengths :=
  repeat match goal with
         | H : length ?l = 0%nat |- _ => destruct l; [clear H | discriminate H]
         | H : length ?l <> 0%nat |- _ => destruct l; [contradiction | clear H]
         end.

Ltac finish := simpl; repeat split; intros; simpl in *; try congruence; try tauto.


(** C4, as the code has it.  Without a registry container the teardown
    succeeds and asks the runtime for no change.  With one, it always asks
    for the disconnection of the network of the cluster: an error of that
    call is returned as it is, and when the call succeeds and a network
    remains the teardown succeeds and removes nothing. *)
Theorem disconnect_without_registry_or_attachment
    (w : W) (name : string) (keepRegistryVolume : bool) :
  let r := run h w (disconnectRegistryFromNetwork k3dNetworkName name keepRegistryVolume) in
  (res_out (run h w getRegistryContainer) = Returned ("", None) ->
   res_out r = Returned None /\ mutations (res_trace r) = []) /\
  (forall cid,
      res_out (run h w getRegistryContainer) = Returned (cid, None) ->
      cid <> "" ->
      disconnections (res_trace r) = [(cid, k3dNetworkName name)] /\
      (forall e, failureOf "disconnectContainerFromNetwork" (res_trace r) = Some e ->
                 res_out r = Returned (Some e) /\
                 removedContainers (res_trace r) = [] /\ deletedVolumes (res_trace r) = []) /\
      (forall n nets, remainingNetworks (res_trace r) = [(cid, n :: nets)] ->
                      res_out r = Returned None /\
                      removedContainers (res_trace r) = [] /\
                      deletedVolumes (res_trace r) = [])).
Proof.
  intros r. subst r. unfold disconnectRegistryFromNetwork.
  split.
  - intros Hloc. after_lookup h w "" Hloc.
    destruct (decide ("" = "")) as [_|Hn]; [|contradiction].
    intros ->. finish.
  - intros cid Hloc Hne. after_lookup h w cid Hloc.
    destruct (decide (cid = "")) as [Hn|_]; [contradiction|].
    unfold removeRegistry.
    run_cases h; settle_lengths; finish.
Qed.

(** C5 (ownership guard).  A volume is deleted by the teardown only if the
    caller did not ask to keep it, it is the volume found mounted at
    [/var/lib/registry], and the look-up of that volume under the labels
    [app=k3d], [component=registry], [managed=true] answered a volume. *)
Theorem volume_deleted_only_if_owned_and_not_kept
    (w : W) (name : string) (keepRegistryVolume : bool) (v : string) :
  let tr := res_trace (run h w (disconnectRegistryFromNetwork k3dNetworkName name
                                                              keepRegistryVolume)) in
  In v (deletedVolumes tr) ->
  keepRegistryVolume = false /\
  In (v, defaultRegistryVolumeLabels) (volumesFound tr) /\
  (exists cid, In (cid, "/var/lib/registry", v) (mountedVolumes tr)) /\
  defaultRegistryVolumeLabels
    = list_to_map [("app", "k3d"); ("component", "registry"); ("managed", "true")].
Proof.
  intros tr. subst tr. name_run.
  unfold disconnectRegistryFromNetwork, getRegistryContainer, removeRegistry.
  run_cases h; settle_lengths;
    unfold deletedVolumes, volumesFound, mountedVolumes; simpl;
    try (intros []; fail).
  all: intros [<-|[]]; repeat split; try (left; reflexivity).
  all: eexists; left; reflexivity.
Qed.

(** C7, as the code has it.  In the teardown an error of the look-up, of
    the disconnection or of the query of the remaining networks is
    returned as it is, without a warning and before anything is removed;
    an error of the ownership look-up or of the deletion of the volume is
    returned wrapped.  Only the detection of the mounted volume and the
    removal of the container are best effort: when none of the former
    fails, the teardown succeeds. *)
Theorem disconnect_aborts_on_failed_queries
    (w : W) (name : string) (keepRegistryVolume : bool) :
  let r := run h w (disconnectRegistryFromNetwork k3dNetworkName name keepRegistryVolume) in
  let wrapped e :=
    Errorf_w (" Couldn't remove volume for registry " +:+ defaultRegistryContainerName +:+ nl) e in
  (forall s e, res_out (run h w getRegistryContainer) = Returned (s, Some e) ->
               res_out r = Returned (Some e)) /\
  (forall cid,
      res_out (run h w getRegistryContainer) = Returned (cid, None) ->
      cid <> "" ->
      (forall e, failureOf "getContainerNetworks" (res_trace r) = Some e ->
                 res_out r = Returned (Some e) /\
                 warnings (res_trace r) = [] /\
                 removedContainers (res_trace r) = [] /\ deletedVolumes (res_trace r) = []) /\
      (forall e, failureOf "disconnectContainerFromNetwork" (res_trace r) = Some e ->
                 res_out r = Returned (Some e) /\
                 warnings (res_trace r) = [] /\
                 removedContainers (res_trace r) = [] /\ deletedVolumes (res_trace r) = []) /\
      (forall e, failureOf "getVolume" (res_trace r) = Some e ->
                 res_out r = Returned (Some (wrapped e))) /\
      (forall e, failureOf "deleteVolume" (res_trace r) = Some e ->
                 res_out r = Returned (Some (wrapped e))) /\
      (failureOf "disconnectContainerFromNetwork" (res_trace r) = None ->
       failureOf "getContainerNetworks" (res_trace r) = None ->
       failureOf "getVolume" (res_trace r) = None ->
       failureOf "deleteVolume" (res_trace r) = None ->
       res_out r = Returned None)).
Proof.
  intros r wrapped. subst r wrapped.
  unfold disconnectRegistryFromNetwork.
  split.
  - intros s e Hloc. rewrite run_bind, Hloc. reflexivity.
  - intros cid Hloc Hne. after_lookup h w cid Hloc.
    destruct (decide (cid = "")) as [Hn|_]; [contradiction|].
    unfold removeRegistry.
    run_cases h; settle_lengths; finish.
Qed.

(** ** The mirror configuration *)

(** The base document is loaded without anything being serialized. *)
Lemma loadBaseRegistries_emits_nothing (w : W) (spec : ClusterSpec) :
  emitted (res_trace (run h w (loadBaseRegistries Quote spec))) = [].
Proof.
  name_run. unfold loadBaseRegistries.
  destruct (0 <? String.length (RegistriesFile spec))%nat; run_cases h; reflexivity.
Qed.

(** The document serialized is the base document after the block of the
    lines 110-126. *)
Lemma writeRegistries_emits (w : W) (spec : ClusterSpec) (ID : string) (base : Registry) :
  res_out (run h w (loadBaseRegistries Quote spec)) = Returned (inl base) ->
  emitted (res_trace (run h w (writeRegistriesConfigInContainer Quote spec ID)))
  = [addRegistryMirrors spec base].
Proof.
  intros Hload. unfold writeRegistriesConfigInContainer.
  rewrite run_bind, Hload.
  pose proof (loadBaseRegistries_emits_nothing w spec) as HE.
  destruct (run h w (loadBaseRegistries Quote spec)) as [out wL trL]. simpl in HE |- *.
  unfold emitted in *. rewrite collect_app, HE.
  name_run. run_cases h; reflexivity.
Qed.

Lemma Itoa_defaultRegistryPort : Itoa defaultRegistryPort = "5000".
Proof. reflexivity. Qed.

(** A map of no entry answers no key. *)
Lemma getMap_lenMap_0 {V} (m : option (gmap string V)) (k : string) :
  lenMap m = 0%nat -> getMap m k = None.
Proof.
  destruct m as [m|]; simpl; [|reflexivity].
  intros ->%map_size_empty_inv. apply lookup_empty.
Qed.

(** The registry's own entry. *)
Lemma addRegistryMirrors_own (spec : ClusterSpec) (base : Registry) :
  RegistryEnabled spec = true ->
  getMap (Mirrors (addRegistryMirrors spec base))
         (RegistryName spec +:+ ":" +:+ Itoa (RegistryPort spec))
  = Some {| Endpoints := ["http://" +:+ RegistryName spec +:+ ":5000"] |}.
Proof.
  intros He. unfold addRegistryMirrors. rewrite He, Itoa_defaultRegistryPort. simpl.
  destruct (RegistryCacheEnabled spec).
  - rewrite lookup_insert. case_decide; [reflexivity|]. apply lookup_insert_eq.
  - apply lookup_insert_eq.
Qed.

(** Every key but the two the block may assign keeps its entry. *)
Lemma addRegistryMirrors_other (spec : ClusterSpec) (base : Registry) (X : string) :
  RegistryEnabled spec = true ->
  X <> RegistryName spec +:+ ":" +:+ Itoa (RegistryPort spec) ->
  (RegistryCacheEnabled spec = true -> X <> defaultDockerHubAddress) ->
  getMap (Mirrors (addRegistryMirrors spec base)) X = getMap (Mirrors base) X.
Proof.
  intros He Hext Hhub. unfold addRegistryMirrors. rewrite He. simpl.
  assert (Hbase : (if decide (lenMap (Mirrors base) = 0%nat) then ∅
                   else default ∅ (Mirrors base)) !! X = getMap (Mirrors base) X).
  { case_decide as Hlen.
    - rewrite (getMap_lenMap_0 _ X Hlen). apply lookup_empty.
    - destruct (Mirrors base); [reflexivity|]. simpl in Hlen. congruence. }
  destruct (RegistryCacheEnabled spec).
  - rewrite lookup_insert_ne by (intros Heq; apply Hhub; auto).
    rewrite lookup_insert_ne by auto. exact Hbase.
  - rewrite lookup_insert_ne by auto. exact Hbase.
Qed.

Lemma addRegistryMirrors_passes_through (spec : ClusterSpec) (base : Registry) :
  Configs (addRegistryMirrors spec base) = Configs base /\
  Auths (addRegistryMirrors spec base) = Auths base.
Proof. unfold addRegistryMirrors. destruct (RegistryEnabled spec); split; reflexivity. Qed.

(** C2, as the code has it.  With the registry enabled, a mirror entry of
    the base document for a host [X] is found unchanged in the document
    written, provided [X] is not the external address [R:P] of the registry
    (nor [docker.io] when the cache is enabled: these keys are assigned);
    the entry of [R:P] has the single endpoint [http://R:5000]. *)
Theorem writeRegistries_keeps_other_mirrors
    (w : W) (spec : ClusterSpec) (ID : string) (base : Registry) (X : string) (m : Mirror) :
  res_out (run h w (loadBaseRegistries Quote spec)) = Returned (inl base) ->
  RegistryEnabled spec = true ->
  getMap (Mirrors base) X = Some m ->
  X <> RegistryName spec +:+ ":" +:+ Itoa (RegistryPort spec) ->
  (RegistryCacheEnabled spec = true -> X <> "docker.io") ->
  exists doc,
    emitted (res_trace (run h w (writeRegistriesConfigInContainer Quote spec ID))) = [doc] /\
    getMap (Mirrors doc) X = Some m /\
    getMap (Mirrors doc) (RegistryName spec +:+ ":" +:+ Itoa (RegistryPort spec))
    = Some {| Endpoints := ["http://" +:+ RegistryName spec +:+ ":5000"] |} /\
    Configs doc = Configs base /\ Auths doc = Auths base.
Proof.
  intros Hload He HX Hext Hhub.
  exists (addRegistryMirrors spec base). split; [|split; [|split]].
  - apply writeRegistries_emits, Hload.
  - rewrite addRegistryMirrors_other; auto.
  - apply addRegistryMirrors_own, He.
  - apply addRegistryMirrors_passes_through.
Qed.


(** C9 (cache mirror).  With the registry enabled, the document written
    when the cache flag is set is the document written without it plus one
    assignment: the key [docker.io], which is not the key of the registry's
    own entry, gets the endpoint list [http://R:5000] of that entry. *)
Theorem cache_adds_docker_hub_mirror
    (w : W) (spec : ClusterSpec) (ID : string) (base : Registry) :
  res_out (run h w (loadBaseRegistries Quote spec)) = Returned (inl base) ->
  RegistryEnabled spec = true ->
  let ext := RegistryName spec +:+ ":" +:+ Itoa (RegistryPort spec) in
  let own := {| Endpoints := ["http://" +:+ RegistryName spec +:+ ":5000"] |} in
  exists off on m,
    emitted (res_trace (run h w (writeRegistriesConfigInContainer
                                   Quote (withCache false spec) ID))) = [off] /\
    emitted (res_trace (run h w (writeRegistriesConfigInContainer
                                   Quote (withCache true spec) ID))) = [on] /\
    Mirrors off = Some m /\
    m !! ext = Some own /\
    Mirrors on = Some (<["docker.io" := own]> m) /\
    ext <> "docker.io" /\
    Configs on = Configs off /\ Auths on = Auths off.
Proof.
  intros Hload He ext own.
  exists (addRegistryMirrors (withCache false spec) base),
         (addRegistryMirrors (withCache true spec) base).
  pose proof (addRegistryMirrors_own (withCache false spec) base He) as Hown.
  unfold addRegistryMirrors in *. simpl in *. rewrite He in *. simpl in Hown.
  eexists. split; [|split; [|split; [reflexivity|]]].
  - rewrite (writeRegistries_emits w (withCache false spec) ID base Hload).
    unfold addRegistryMirrors. simpl. rewrite He. reflexivity.
  - rewrite (writeRegistries_emits w (withCache true spec) ID base Hload).
    unfold addRegistryMirrors. simpl. rewrite He. reflexivity.
  - split; [exact Hown|]. split; [reflexivity|].
    split; [apply external_address_not_hub|]. split; reflexivity.
Qed.

(** ** The creation path *)

(** C6, as the code has it.  When no registry exists and a step of the
    construction fails: a port specification that does not parse ends the
    process through [log.Fatalf] (nothing is returned to the caller); an
    error of the merge is returned as it is; an error of the volume
    look-up, of the volume creation, of the container creation or of its
    start is returned wrapped in a message naming the step.  Without a
    failure the identifier of the new container is returned. *)
Theorem createRegistry_construction_failures (w : W) (spec : ClusterSpec) :
  res_out (run h w getRegistryContainer) = Returned ("", None) ->
  let r := run h w (createRegistry k3dNetworkName spec) in
  let portSpec :=
    "0.0.0.0:" +:+ Itoa (RegistryPort spec) +:+ ":" +:+ Itoa defaultRegistryPort +:+ "/tcp" in
  (forall e, failureOf "CreatePublishedPorts" (res_trace r) = Some e ->
             res_out r = Exited 1 /\
             In (FatalLevel,
                 "Error: failed to parse port specs " +:+ portSpec +:+ " " +:+ nl +:+ Error e)
                (logged (res_trace r))) /\
  (forall e, failureOf "mergo.Merge" (res_trace r) = Some e ->
             res_out r = Returned ("", Some e)) /\
  (forall e, failureOf "getVolume" (res_trace r) = Some e ->
             res_out r = Returned
               ("", Some (Errorf_w (" Couldn't check if volume " +:+ RegistryVolume spec
                                    +:+ " exists: ") e))) /\
  (forall e, failureOf "createVolume" (res_trace r) = Some e ->
             res_out r = Returned
               ("", Some (Errorf_w (" Couldn't create volume " +:+ RegistryVolume spec
                                    +:+ " for registry: ") e))) /\
  (forall e, failureOf "createContainer" (res_trace r) = Some e ->
             res_out r = Returned
               ("", Some (Errorf_w (" Couldn't create registry container "
                                    +:+ defaultRegistryContainerName +:+ nl) e))) /\
  (forall e, failureOf "startContainer" (res_trace r) = Some e ->
             res_out r = Returned
               ("", Some (Errorf_w (" Couldn't start container "
                                    +:+ defaultRegistryContainerName +:+ nl) e))) /\
  (failures (res_trace r) = [] -> exists id, res_out r = Returned (id, None)).
Proof.
  intros Hloc r portSpec. subst r portSpec. unfold createRegistry.
  after_lookup h w "" Hloc.
  destruct (decide ("" ≠ "")) as [Hn|_]; [contradiction|].
  unfold createNewRegistry.
  destruct spec as [cn en ca rn rp rv rf ar hcfg]. cbn [RegistryVolume RegistryCacheEnabled
    AutoRestart RegistryName RegistryPort spec_HostConfig ClusterName].
  run_cases h; finish; eauto.
  simplify_eq. right. left. reflexivity.
Qed.

(** The host configuration of the new container is the answer of
    [mergo.Merge(hostConfig, spec.HostConfig)], called once, without
    option, with the baseline (published ports, privileged, init) as
    destination; after it only the restart policy name (auto-restart) and
    the binds (registry volume) are assigned. *)
Lemma createRegistry_hostConfig_from_merge
    (w : W) (spec : ClusterSpec) (name : string) (hostConfig : HostConfig) :
  res_out (run h w getRegistryContainer) = Returned ("", None) ->
  let tr := res_trace (run h w (createRegistry k3dNetworkName spec)) in
  In (name, hostConfig) (createdContainers tr) ->
  exists pp m,
    published tr = [pp] /\
    merged tr =
      [({| Binds := []; PortBindings := pp_PortBindings pp;
           hc_RestartPolicy := {| rp_Name := ""; rp_MaximumRetryCount := 0 |};
           Privileged := true; Init := Some true |},
        spec_HostConfig spec, m)] /\
    PortBindings hostConfig = PortBindings m /\
    Privileged hostConfig = Privileged m /\
    Init hostConfig = Init m /\
    (RegistryVolume spec = "" -> Binds hostConfig = Binds m) /\
    (AutoRestart spec = false -> hc_RestartPolicy hostConfig = hc_RestartPolicy m).
Proof.
  intros Hloc tr. subst tr. unfold createRegistry.
  after_lookup h w "" Hloc.
  destruct (decide ("" ≠ "")) as [Hn|_]; [contradiction|].
  unfold createNewRegistry.
  destruct spec as [cn en ca rn rp rv rf ar hcfg]. cbn [RegistryVolume RegistryCacheEnabled
    AutoRestart RegistryName RegistryPort spec_HostConfig ClusterName].
  run_cases h; simpl; try (intros []; fail).
  all: intros [Heq|[]]; injection Heq as <- <-.
  all: do 2 eexists; repeat split; simpl; congruence.
Qed.

End Properties.

(** * The code on concrete inputs *)

(** The last cluster leaves: the container and its volume go. *)
Example teardown_last_cluster :
  res_out (teardown lastWorld "a" false) = Returned None /\
  removedContainers (res_trace (teardown lastWorld "a" false)) = ["cafe01"] /\
  deletedVolumes (res_trace (teardown lastWorld "a" false)) = ["regvol"] /\
  w_containers (res_world (teardown lastWorld "a" false)) = [] /\
  w_volumes (res_world (teardown lastWorld "a" false)) = [].
Proof. vm_compute. repeat split; reflexivity. Qed.

(** One of two clusters leaves: the registry stays, attached to the other. *)
Example teardown_one_of_two :
  res_out (teardown sharedWorld "a" false) = Returned None /\
  remainingNetworks (res_trace (teardown sharedWorld "a" false)) = [("cafe01", ["k3d-b"])] /\
  mutations (res_trace (teardown sharedWorld "a" false))
  = [Ev (disconnectContainerFromNetwork "cafe01" "k3d-a") None] /\
  hc_Networks <$> w_containers (res_world (teardown sharedWorld "a" false)) = [["k3d-b"]].
Proof. vm_compute. repeat split; reflexivity. Qed.

(** The volume is kept on demand, and when it does not carry the labels. *)
Example teardown_keeps_volume :
  deletedVolumes (res_trace (teardown lastWorld "a" true)) = [] /\
  deletedVolumes (res_trace (teardown foreignVolumeWorld "a" false)) = [] /\
  deletedVolumes (res_trace (teardown foreignVolumeWorld "a" true)) = [] /\
  removedContainers (res_trace (teardown foreignVolumeWorld "a" false)) = ["cafe01"].
Proof. vm_compute. repeat split; reflexivity. Qed.


(** C3 at a registry that already serves [a] and [b]; the cluster of
    [refSpec] is [dev]. *)
Lemma createRegistry_reuses_existing_witness :
  let r := run docker sharedWorld (createRegistry refNetworkName refSpec) in
  createdContainers (res_trace r) = [] /\
  createdVolumes (res_trace r) = [] /\
  startedContainers (res_trace r) = ["cafe01"] /\
  connections (res_trace r) = [("cafe01", "k3d-dev", ["registry.local"])] /\
  res_out r = Returned (match failureOf "connectContainerToNetwork" (res_trace r) with
                        | Some e => ("", Some e)
                        | None => ("cafe01", None)
                        end) /\
  (is_Some (failureOf "startContainer" (res_trace r)) ->
   warnings (res_trace r)
     = ["Failed to start registry container. Try starting it manually via `docker start "
        +:+ "cafe01" +:+ "`"]).
Proof.
  apply (createRegistry_reuses_existing docker refNetworkName sharedWorld refSpec "cafe01").
  - vm_compute. reflexivity.
  - discriminate.
Defined.

(** The reuse branch when the start fails: a warning, and the identifier
    all the same. *)
Example createRegistry_reuse_start_fails :
  let r := run docker (withFaults ["startContainer"] sharedWorld)
               (createRegistry refNetworkName refSpec) in
  res_out r = Returned ("cafe01", None) /\
  length (warnings (res_trace r)) = 1%nat /\
  createdContainers (res_trace r) = [].
Proof. vm_compute. repeat split; reflexivity. Qed.

(** C4 without a registry: success, nothing asked of the runtime. *)
Lemma disconnect_without_registry_or_attachment_witness :
  res_out (teardown emptyWorld "a" false) = Returned None /\
  mutations (res_trace (teardown emptyWorld "a" false)) = [].
Proof.
  apply (disconnect_without_registry_or_attachment docker refNetworkName emptyWorld "a" false).
  vm_compute. reflexivity.
Defined.

(** C4 as stated fails on the code.  The cluster [b] was never attached.
    On a runtime that refuses to disconnect a network that is not attached
    the teardown returns that error; on a runtime that accepts it, a
    registry left without network is removed. *)
Lemma disconnect_unattached_fails_or_removes :
  ~ In "k3d-b" (hc_Networks (registryContainer ["k3d-a"] "regvol")) /\
  res_out (teardown lastWorld "b" false)
  = Returned (Some (errorString "container cafe01 is not connected to network k3d-b")) /\
  res_out (teardown (idleWorld false) "b" false) = Returned None /\
  removedContainers (res_trace (teardown (idleWorld false) "b" false)) = ["cafe01"] /\
  w_containers (res_world (teardown (idleWorld false) "b" false)) = [].
Proof.
  split.
  - simpl. intros [H|[]]. discriminate H.
  - vm_compute. repeat split; reflexivity.
Qed.

(** C5 at the last cluster leaving: the volume deleted was not to be kept,
    is the one mounted at the registry path, and carries the labels. *)
Lemma volume_deleted_only_if_owned_and_not_kept_witness :
  let tr := res_trace (teardown lastWorld "a" false) in
  false = false /\
  In ("regvol", defaultRegistryVolumeLabels) (volumesFound tr) /\
  (exists cid, In (cid, "/var/lib/registry", "regvol") (mountedVolumes tr)) /\
  defaultRegistryVolumeLabels
    = list_to_map [("app", "k3d"); ("component", "registry"); ("managed", "true")].
Proof.
  apply (volume_deleted_only_if_owned_and_not_kept docker refNetworkName lastWorld
           "a" false "regvol").
  vm_compute. left. reflexivity.
Defined.

(** C7 as stated fails on the code: when the query of the remaining
    networks fails, the teardown returns the error, logs no warning and
    removes nothing. *)
Lemma network_query_failure_aborts :
  let r := teardown (withFaults ["getContainerNetworks"] lastWorld) "a" false in
  res_out r = Returned (Some (errorString "getContainerNetworks failed")) /\
  res_out r <> Returned None /\
  warnings (res_trace r) = [] /\
  removedContainers (res_trace r) = [] /\
  deletedVolumes (res_trace r) = [].
Proof. vm_compute. repeat split; try reflexivity. discriminate. Qed.

(** C7, as the code has it, at the failing query. *)
Lemma disconnect_aborts_on_failed_queries_witness :
  let r := teardown (withFaults ["getContainerNetworks"] lastWorld) "a" false in
  res_out r = Returned (Some (errorString "getContainerNetworks failed")) /\
  warnings (res_trace r) = [] /\
  removedContainers (res_trace r) = [] /\ deletedVolumes (res_trace r) = [].
Proof.
  destruct (disconnect_aborts_on_failed_queries docker refNetworkName
              (withFaults ["getContainerNetworks"] lastWorld) "a" false) as [_ H].
  destruct (H "cafe01") as [Hq _].
  - vm_compute. reflexivity.
  - discriminate.
  - apply Hq. vm_compute. reflexivity.
Defined.

(** C2 as stated fails on the code: a base entry of the host
    [registry.local:5000], the external address of the registry, is not
    found unchanged in the document written; nor is, with the cache
    enabled, a base entry of the host [docker.io]. *)
Lemma writeRegistries_overwrites_own_address :
  let X := "registry.local:5000" in
  let m := {| Endpoints := ["https://other.example.org"] |} in
  let X' := "docker.io" in
  let m' := {| Endpoints := ["https://hub.example.org"] |} in
  (getMap (Mirrors baseDocument) X = Some m /\
   ~ (exists doc, written fileWorld fileSpec = [doc] /\ getMap (Mirrors doc) X = Some m)) /\
  (getMap (Mirrors hubDocument) X' = Some m' /\
   ~ (exists doc, written hubWorld (withCache true fileSpec) = [doc] /\
                  getMap (Mirrors doc) X' = Some m')).
Proof.
  split; (split; [vm_compute; reflexivity|]); intros (doc & Hdoc & HX).
  - assert (Hw : written fileWorld fileSpec = [addRegistryMirrors fileSpec baseDocument])
      by (apply writeRegistries_emits; vm_compute; reflexivity).
    rewrite Hw in Hdoc. injection Hdoc as <-.
    vm_compute in HX. discriminate HX.
  - assert (Hw : written hubWorld (withCache true fileSpec)
                 = [addRegistryMirrors (withCache true fileSpec) hubDocument])
      by (apply writeRegistries_emits; vm_compute; reflexivity).
    rewrite Hw in Hdoc. injection Hdoc as <-.
    vm_compute in HX. discriminate HX.
Qed.

(** C2, as the code has it, at the entry of [quay.io]. *)
Lemma writeRegistries_keeps_other_mirrors_witness :
  exists doc,
    written fileWorld fileSpec = [doc] /\
    getMap (Mirrors doc) "quay.io" = Some {| Endpoints := ["https://mirror.example.org"] |} /\
    getMap (Mirrors doc) ("registry.local" +:+ ":" +:+ Itoa 5000)
    = Some {| Endpoints := ["http://" +:+ "registry.local" +:+ ":5000"] |} /\
    Configs doc = Configs baseDocument /\ Auths doc = Auths baseDocument.
Proof.
  apply (writeRegistries_keeps_other_mirrors docker refQuote fileWorld fileSpec "node-1"
           baseDocument "quay.io").
  - vm_compute. reflexivity.
  - reflexivity.
  - vm_compute. reflexivity.
  - vm_compute. discriminate.
  - discriminate.
Defined.

(** C9 at the base document above. *)
Lemma cache_adds_docker_hub_mirror_witness :
  let ext := "registry.local" +:+ ":" +:+ Itoa 5000 in
  let own := {| Endpoints := ["http://" +:+ "registry.local" +:+ ":5000"] |} in
  exists off on m,
    written fileWorld (withCache false fileSpec) = [off] /\
    written fileWorld (withCache true fileSpec) = [on] /\
    Mirrors off = Some m /\
    m !! ext = Some own /\
    Mirrors on = Some (<["docker.io" := own]> m) /\
    ext <> "docker.io" /\
    Configs on = Configs off /\ Auths on = Auths off.
Proof.
  apply (cache_adds_docker_hub_mirror docker refQuote fileWorld fileSpec "node-1"
           baseDocument).
  - vm_compute. reflexivity.
  - reflexivity.
Defined.

(** The document written has the two entries of the base document without
    the cache, and a third one with it. *)
Example cache_document_size :
  (fun doc => lenMap (Mirrors doc)) <$> written fileWorld (withCache false fileSpec) = [2%nat] /\
  (fun doc => lenMap (Mirrors doc)) <$> written fileWorld (withCache true fileSpec) = [3%nat] /\
  (fun doc => getMap (Mirrors doc) "docker.io") <$> written fileWorld (withCache true fileSpec)
  = [Some {| Endpoints := ["http://registry.local:5000"] |}].
Proof. vm_compute. repeat split; reflexivity. Qed.


(** With the registry off the base document goes out as it came in. *)
Example disabled_registry_writes_base :
  emitted (res_trace (run docker fileWorld
                          (writeRegistriesConfigInContainer
                             refQuote
                             {| ClusterName := "dev"; RegistryEnabled := false;
                                RegistryCacheEnabled := true;
                                RegistryName := "registry.local"; RegistryPort := 5000;
                                RegistryVolume := "";
                                RegistriesFile := "/home/user/.k3d/registries.yaml";
                                AutoRestart := false; spec_HostConfig := noHostConfig |}
                             "node-1")))
  = [baseDocument].
Proof. vm_compute. reflexivity. Qed.

(** C6 as stated fails on the code: when the port specification does not
    parse, [createRegistry] does not return an error to its caller, the
    process exits. *)
Lemma bad_port_spec_exits :
  let r := run docker emptyWorld (createRegistry refNetworkName badPortSpec) in
  failureOf "CreatePublishedPorts" (res_trace r)
  = Some (errorString "Invalid port specification") /\
  res_out r = Exited 1 /\
  ~ (exists id e, res_out r = Returned (id, Some e)).
Proof.
  vm_compute. repeat split; try reflexivity.
  intros (id & e & H). discriminate H.
Qed.

(** C6, as the code has it, at the port that does not parse. *)
Lemma createRegistry_construction_failures_witness :
  let r := run docker emptyWorld (createRegistry refNetworkName badPortSpec) in
  res_out r = Exited 1 /\
  In (FatalLevel,
      "Error: failed to parse port specs "
      +:+ ("0.0.0.0:" +:+ Itoa (-1) +:+ ":" +:+ Itoa defaultRegistryPort +:+ "/tcp")
      +:+ " " +:+ nl +:+ Error (errorString "Invalid port specification"))
     (logged (res_trace r)).
Proof.
  destruct (createRegistry_construction_failures docker refNetworkName emptyWorld badPortSpec)
    as [Hport _].
  - vm_compute. reflexivity.
  - apply Hport. vm_compute. reflexivity.
Defined.

(** The creation path when the volume cannot be created: the error comes
    back wrapped. *)
Example createRegistry_volume_failure :
  let spec :=
    {| ClusterName := "dev"; RegistryEnabled := true; RegistryCacheEnabled := false;
       RegistryName := "registry.local"; RegistryPort := 5000; RegistryVolume := "regvol";
       RegistriesFile := ""; AutoRestart := false; spec_HostConfig := noHostConfig |} in
  let r := run docker (withFaults ["createVolume"] emptyWorld)
               (createRegistry refNetworkName spec) in
  res_out r = Returned
    ("", Some (wrapError " Couldn't create volume regvol for registry: createVolume failed"
                         (errorString "createVolume failed"))) /\
  createdContainers (res_trace r) = [].
Proof. vm_compute. repeat split; reflexivity. Qed.

(** A new registry with a volume: the volume carries the managed labels
    and the name and port of the registry. *)
Example createRegistry_new_with_volume :
  let spec :=
    {| ClusterName := "dev"; RegistryEnabled := true; RegistryCacheEnabled := true;
       RegistryName := "registry.local"; RegistryPort := 5000; RegistryVolume := "regvol";
       RegistriesFile := ""; AutoRestart := true; spec_HostConfig := noHostConfig |} in
  let r := run docker emptyWorld (createRegistry refNetworkName spec) in
  res_out r = Returned ("id-k3d-registry", None) /\
  w_volumes (res_world r) = [registryVolume] /\
  (fun c => (snd c).(Binds)) <$> createdContainers (res_trace r)
  = [["regvol:/var/lib/registry"]] /\
  (fun c => rp_Name (hc_RestartPolicy (snd c))) <$> createdContainers (res_trace r)
  = ["unless-stopped"].
Proof. vm_compute. repeat split; reflexivity. Qed.

(** C8 on the code.  [createRegistry] hands the baseline to [mergo.Merge]
    as the destination and passes no option, so that where the baseline
    and the override both set a field the value of the baseline stays:
    [Init] remains true and the port [5000/tcp] keeps the binding of the
    baseline.  Only the fields the baseline leaves empty (the restart
    policy) come from the override. *)
Theorem createRegistry_baseline_wins_merge :
  let r := run docker emptyWorld (createRegistry refNetworkName overrideSpec) in
  exists baseline hostConfig,
    merges (res_trace r) = [(baseline, overrideHostConfig)] /\
    createdContainers (res_trace r) = [(defaultRegistryContainerName, hostConfig)] /\
    Init baseline = Some true /\ Init overrideHostConfig = Some false /\
    Init hostConfig = Some true /\
    PortBindings baseline !! "5000/tcp" = Some [mkPortBinding "0.0.0.0" "5000"] /\
    PortBindings overrideHostConfig !! "5000/tcp" = Some [mkPortBinding "127.0.0.1" "6000"] /\
    PortBindings hostConfig !! "5000/tcp" = Some [mkPortBinding "0.0.0.0" "5000"] /\
    hc_RestartPolicy hostConfig = {| rp_Name := "on-failure"; rp_MaximumRetryCount := 3 |}.
Proof.
  vm_compute. do 2 eexists. repeat split; reflexivity.
Qed.

(** * Further properties of registry.go *)

Ltac unfold_more :=
  unfold listed, listAnswers, containerSpecs, containersMade, volumeSpecs, copies,
    marshalledBytes, filesRead, clock in *.

Ltac lengths :=
  repeat match goal with
         | H : length ?l = 0%nat |- _ => destruct l; [clear H | discriminate H]
         | H : length ?l <> 0%nat |- _ => destruct l; [contradiction | clear H]
         end.

Ltac close := simpl; repeat split; intros; simpl in *; try congruence; try tauto.

Section LookUp.

Context {W : Type} (h : handler W).

(** X1.  The look-up lists the containers once, unless the client cannot
    be created: those named [k3d-registry] that carry the labels [app=k3d]
    and [component=registry], the stopped ones included.  It asks the
    runtime for no change. *)
Theorem getRegistryContainer_filter (w : W) :
  let tr := res_trace (run h w getRegistryContainer) in
  listed tr = match failureOf "client.NewClientWithOpts" tr with
              | Some _ => []
              | None => [registryListOptions]
              end /\
  mutations tr = [].
Proof.
  intros tr. subst tr. name_run. unfold getRegistryContainer.
  run_cases h; split; try reflexivity.
  all: vm_compute; reflexivity.
Qed.

(** X2.  An error of the look-up comes back with an empty identifier: the
    error of the client creation as a new error that carries only its text
    (nothing to unwrap), the error of the listing wrapped, so that
    [errors.Unwrap] gives it back. *)
Theorem getRegistryContainer_errors (w : W) :
  let r := run h w getRegistryContainer in
  (forall e, failureOf "client.NewClientWithOpts" (res_trace r) = Some e ->
             exists err, res_out r = Returned ("", Some err) /\
                         Error err = "Couldn't create docker client" +:+ nl +:+ Error e /\
                         Unwrap err = None /\
                         listed (res_trace r) = []) /\
  (forall e, failureOf "docker.ContainerList" (res_trace r) = Some e ->
             exists err, res_out r = Returned ("", Some err) /\
                         Error err = " Couldn't list containers: " +:+ Error e /\
                         Unwrap err = Some e).
Proof.
  intros r. subst r. name_run. unfold getRegistryContainer.
  run_cases h; split; intros e0 He; try discriminate He.
  all: injection He as <-; eexists; repeat split.
Qed.

(** X3.  When no call fails the look-up returns the identifier of the first
    container of the listing, whatever follows it, and the empty
    identifier without error when the listing is empty. *)
Theorem getRegistryContainer_first_match (w : W) :
  let r := run h w getRegistryContainer in
  failures (res_trace r) = [] ->
  exists containers,
    listAnswers (res_trace r) = [containers] /\
    res_out r = Returned (match containers with
                          | [] => ""
                          | c :: _ => ID c
                          end, None).
Proof.
  intros r. subst r. name_run. unfold getRegistryContainer.
  run_cases h; simpl; intros Hf; try discriminate Hf.
  all: eexists; split; reflexivity.
Qed.

End LookUp.

Section Creation.

Context {W : Type} (h : handler W).
Variable k3dNetworkName : string -> string.

Ltac creation_path w Hloc :=
  unfold createRegistry; unfold_more;
  after_lookup h w "" Hloc;
  destruct (decide ("" ≠ "")) as [?|_]; [contradiction|];
  unfold createNewRegistry.

(** The single call of [createContainer] on the creation path, in full:
    the name, the configuration, the host configuration made of the merge
    answer [m], and the network endpoint. *)
Lemma createRegistry_container_call
    (w : W) (spec : ClusterSpec)
    (cfg : Config) (hc : HostConfig) (nc : NetworkingConfig) (name : string) :
  res_out (run h w getRegistryContainer) = Returned ("", None) ->
  let tr := res_trace (run h w (createRegistry k3dNetworkName spec)) in
  In (cfg, hc, nc, name) (containerSpecs tr) ->
  exists pp m now,
    published tr = [pp] /\
    merged tr =
      [({| Binds := []; PortBindings := pp_PortBindings pp;
           hc_RestartPolicy := {| rp_Name := ""; rp_MaximumRetryCount := 0 |};
           Privileged := true; Init := Some true |},
        spec_HostConfig spec, m)] /\
    clock tr = [now] /\
    name = defaultRegistryContainerName /\
    cfg = {| Hostname := RegistryName spec;
             Image := defaultRegistryImage;
             ExposedPorts := pp_ExposedPorts pp;
             cfg_Labels := <["hostname" := RegistryName spec]>
                             (<["created" := now]>
                                (copyLabels defaultRegistryContainerLabels ∅));
             Env := if RegistryCacheEnabled spec
                    then ["REGISTRY_PROXY_REMOTEURL=https://registry-1.docker.io"]
                    else [] |} /\
    hc = {| Binds := if decide (RegistryVolume spec ≠ "")
                     then [RegistryVolume spec +:+ ":/var/lib/registry"]
                     else Binds m;
            PortBindings := PortBindings m;
            hc_RestartPolicy :=
              if AutoRestart spec
              then {| rp_Name := "unless-stopped";
                      rp_MaximumRetryCount := rp_MaximumRetryCount (hc_RestartPolicy m) |}
              else hc_RestartPolicy m;
            Privileged := Privileged m;
            Init := Init m |} /\
    nc = {| EndpointsConfig :=
              {[ k3dNetworkName (ClusterName spec) := {| Aliases := [RegistryName spec] |} ]} |} /\
    containerSpecs tr = [(cfg, hc, nc, name)].
Proof.
  intros Hloc tr. subst tr. creation_path w Hloc.
  destruct spec as [cn en ca rn rp rv rf ar hcfg]. cbn [RegistryVolume RegistryCacheEnabled
    AutoRestart RegistryName RegistryPort spec_HostConfig ClusterName].
  run_cases h; simpl; try (intros []; fail).
  all: intros [Heq|[]]; injection Heq as <- <- <- <-.
  all: do 3 eexists; repeat split; try reflexivity.
  all: repeat match goal with x : HostConfig |- _ => destruct x end; reflexivity.
Qed.

(** What else the creation path does, whatever the runtime answers. *)
Lemma createRegistry_creation_summary (w : W) (spec : ClusterSpec) :
  res_out (run h w getRegistryContainer) = Returned ("", None) ->
  let r := run h w (createRegistry k3dNetworkName spec) in
  let tr := res_trace r in
  connections tr = [] /\
  (forall v l, In (v, l) (volumeLookups tr) ->
               v = RegistryVolume spec /\ v <> "" /\ l = ∅) /\
  (forall v labels, In (v, labels) (volumeSpecs tr) ->
                    v = RegistryVolume spec /\
                    labels = copyLabels defaultRegistryVolumeLabels
                               (<["registry-port" := Itoa (RegistryPort spec)]>
                                  (<["registry-name" := RegistryName spec]> ∅)) /\
                    volumesFound tr = [] /\
                    volumeLookups tr = [(v, ∅)]) /\
  (volumesFound tr <> [] -> createdVolumes tr = []) /\
  (RegistryVolume spec = "" -> volumeLookups tr = [] /\ createdVolumes tr = []) /\
  (failures tr = [] ->
   exists id, res_out r = Returned (id, None) /\
              containersMade tr = [id] /\ startedContainers tr = [id]) /\
  (forall e, failureOf "CreatePublishedPorts" tr = Some e \/
             failureOf "mergo.Merge" tr = Some e \/
             failureOf "getVolume" tr = Some e ->
             mutations tr = []).
Proof.
  intros Hloc r tr. subst tr r. creation_path w Hloc.
  destruct spec as [cn en ca rn rp rv rf ar hcfg]. cbn [RegistryVolume RegistryCacheEnabled
    AutoRestart RegistryName RegistryPort spec_HostConfig ClusterName].
  run_cases h; close.
  all: try match goal with H : _ \/ _ |- _ => destruct H as [H|[H|H]]; congruence end.
  all: try match goal with H : _ \/ False |- _ => destruct H as [H|[]]; congruence end.
  all: try (eexists; repeat split; reflexivity).
Qed.

Lemma copyLabels_container_defaults :
  copyLabels defaultRegistryContainerLabels ∅ = defaultRegistryContainerLabels.
Proof. vm_compute. reflexivity. Qed.

(** X4.  The container is created under the name and with the labels the
    look-up filters on: the name [k3d-registry], the labels [app=k3d] and
    [component=registry], next to the two labels [created] (the time read)
    and [hostname] (the registry name) and no other; its image is
    [registry:2] and its host name the registry name. *)
Theorem createRegistry_container_identity
    (w : W) (spec : ClusterSpec)
    (cfg : Config) (hc : HostConfig) (nc : NetworkingConfig) (name : string) :
  res_out (run h w getRegistryContainer) = Returned ("", None) ->
  let tr := res_trace (run h w (createRegistry k3dNetworkName spec)) in
  In (cfg, hc, nc, name) (containerSpecs tr) ->
  name = "k3d-registry" /\
  Image cfg = "registry:2" /\
  Hostname cfg = RegistryName spec /\
  defaultRegistryContainerLabels ⊆ cfg_Labels cfg /\
  cfg_Labels cfg !! "hostname" = Some (RegistryName spec) /\
  (exists now, clock tr = [now] /\ cfg_Labels cfg !! "created" = Some now) /\
  dom (cfg_Labels cfg) = {[ "app"; "component"; "created"; "hostname" ]}.
Proof.
  intros Hloc tr Hin.
  destruct (createRegistry_container_call w spec cfg hc nc name Hloc Hin)
    as (pp & m & now & _ & _ & Hclock & -> & -> & _).
  cbn [cfg_Labels Image Hostname]. rewrite copyLabels_container_defaults.
  do 3 (split; [reflexivity|]).
  split; [|split; [|split]].
  - apply insert_subseteq_r; [reflexivity|].
    apply insert_subseteq_r; [reflexivity|]. reflexivity.
  - apply lookup_insert_eq.
  - exists now. split; [exact Hclock|].
    rewrite lookup_insert_ne by discriminate. apply lookup_insert_eq.
  - rewrite !dom_insert_L. unfold defaultRegistryContainerLabels.
    rewrite !dom_insert_L, dom_empty_L. apply set_eq. intros x.
    rewrite !elem_of_union, !elem_of_singleton, elem_of_empty. tauto.
Qed.

(** X5.  The new container is attached, at its creation, to the network of
    the cluster and to no other, under the alias [spec.RegistryName]: the
    attachment the reuse branch makes by a call of its own, which the
    creation path never makes. *)
Theorem createRegistry_network_endpoint
    (w : W) (spec : ClusterSpec)
    (cfg : Config) (hc : HostConfig) (nc : NetworkingConfig) (name : string) :
  res_out (run h w getRegistryContainer) = Returned ("", None) ->
  let tr := res_trace (run h w (createRegistry k3dNetworkName spec)) in
  In (cfg, hc, nc, name) (containerSpecs tr) ->
  EndpointsConfig nc
  = {[ k3dNetworkName (ClusterName spec) := {| Aliases := [RegistryName spec] |} ]} /\
  connections tr = [].
Proof.
  intros Hloc tr Hin.
  destruct (createRegistry_container_call w spec cfg hc nc name Hloc Hin)
    as (pp & m & now & _ & _ & _ & _ & _ & _ & -> & _).
  split; [reflexivity|].
  apply (createRegistry_creation_summary w spec Hloc).
Qed.

(** X6.  The environment of the new container is the single variable
    [REGISTRY_PROXY_REMOTEURL=https://registry-1.docker.io] when the
    pull-through cache is enabled, and empty otherwise. *)
Theorem createRegistry_cache_environment
    (w : W) (spec : ClusterSpec)
    (cfg : Config) (hc : HostConfig) (nc : NetworkingConfig) (name : string) :
  res_out (run h w getRegistryContainer) = Returned ("", None) ->
  let tr := res_trace (run h w (createRegistry k3dNetworkName spec)) in
  In (cfg, hc, nc, name) (containerSpecs tr) ->
  Env cfg = if RegistryCacheEnabled spec
            then ["REGISTRY_PROXY_REMOTEURL=https://registry-1.docker.io"]
            else [].
Proof.
  intros Hloc tr Hin.
  destruct (createRegistry_container_call w spec cfg hc nc name Hloc Hin)
    as (pp & m & now & _ & _ & _ & _ & -> & _).
  reflexivity.
Qed.

(** X7.  When a registry volume is named, the binds of the new container
    are that volume at [/var/lib/registry] and nothing else: the binds of
    the host configuration override, and of the merge, are dropped. *)
Theorem createRegistry_binds_registry_volume
    (w : W) (spec : ClusterSpec)
    (cfg : Config) (hc : HostConfig) (nc : NetworkingConfig) (name : string) :
  res_out (run h w getRegistryContainer) = Returned ("", None) ->
  let tr := res_trace (run h w (createRegistry k3dNetworkName spec)) in
  In (cfg, hc, nc, name) (containerSpecs tr) ->
  RegistryVolume spec <> "" ->
  Binds hc = [RegistryVolume spec +:+ ":" +:+ defaultRegistryMountPath].
Proof.
  intros Hloc tr Hin Hvol.
  destruct (createRegistry_container_call w spec cfg hc nc name Hloc Hin)
    as (pp & m & now & _ & _ & _ & _ & _ & -> & _).
  simpl. destruct (decide (RegistryVolume spec ≠ "")); [reflexivity|contradiction].
Qed.

(** X8.  With auto-restart the restart policy of the new container is named
    [unless-stopped], whatever name the override or the merge gave; the
    retry count stays the merged one.  Without it the policy is the merged
    one. *)
Theorem createRegistry_restart_policy
    (w : W) (spec : ClusterSpec)
    (cfg : Config) (hc : HostConfig) (nc : NetworkingConfig) (name : string) :
  res_out (run h w getRegistryContainer) = Returned ("", None) ->
  let tr := res_trace (run h w (createRegistry k3dNetworkName spec)) in
  In (cfg, hc, nc, name) (containerSpecs tr) ->
  exists baseline m,
    merged tr = [(baseline, spec_HostConfig spec, m)] /\
    rp_MaximumRetryCount (hc_RestartPolicy hc) = rp_MaximumRetryCount (hc_RestartPolicy m) /\
    rp_Name (hc_RestartPolicy hc)
    = if AutoRestart spec then "unless-stopped" else rp_Name (hc_RestartPolicy m).
Proof.
  intros Hloc tr Hin.
  destruct (createRegistry_container_call w spec cfg hc nc name Hloc Hin)
    as (pp & m & now & _ & Hm & _ & _ & _ & -> & _).
  eexists _, m. split; [exact Hm|].
  simpl. destruct (AutoRestart spec); split; reflexivity.
Qed.

Lemma copyLabels_volume_defaults (name port : string) :
  copyLabels defaultRegistryVolumeLabels
    (<["registry-port" := port]> (<["registry-name" := name]> ∅))
  = <["app" := "k3d"]>
      (<["component" := "registry"]>
         (<["managed" := "true"]>
            (<["registry-port" := port]> (<["registry-name" := name]> ∅)))).
Proof.
  apply map_eq. intros k. unfold copyLabels, defaultRegistryVolumeLabels.
  rewrite !map_fold_insert_L.
  - rewrite map_fold_empty. reflexivity.
  - intros. apply insert_insert_ne. congruence.
  - reflexivity.
  - intros. apply insert_insert_ne. congruence.
  - reflexivity.
  - intros. apply insert_insert_ne. congruence.
  - reflexivity.
Qed.

(** X9.  A volume created for the registry has the name [spec.RegistryVolume]
    and exactly five labels: the three the teardown looks the volume up
    by ([app=k3d], [component=registry], [managed=true]) and the name and
    the port of the registry. *)
Theorem createRegistry_volume_labels
    (w : W) (spec : ClusterSpec) (v : string) (labels : gmap string string) :
  res_out (run h w getRegistryContainer) = Returned ("", None) ->
  let tr := res_trace (run h w (createRegistry k3dNetworkName spec)) in
  In (v, labels) (volumeSpecs tr) ->
  v = RegistryVolume spec /\
  defaultRegistryVolumeLabels ⊆ labels /\
  labels !! "registry-name" = Some (RegistryName spec) /\
  labels !! "registry-port" = Some (Itoa (RegistryPort spec)) /\
  dom labels = {[ "app"; "component"; "managed"; "registry-name"; "registry-port" ]}.
Proof.
  intros Hloc tr Hin.
  destruct (createRegistry_creation_summary w spec Hloc) as (_ & _ & Hvol & _).
  destruct (Hvol v labels Hin) as (-> & -> & _).
  rewrite copyLabels_volume_defaults. unfold defaultRegistryVolumeLabels.
  split; [reflexivity|]. split; [|split; [|split]].
  - do 3 (apply insert_mono). apply map_empty_subseteq.
  - rewrite !lookup_insert_ne by discriminate. apply lookup_insert_eq.
  - rewrite !lookup_insert_ne by discriminate. apply lookup_insert_eq.
  - rewrite !dom_insert_L, dom_empty_L. apply set_eq. intros x.
    rewrite !elem_of_union, !elem_of_singleton, elem_of_empty. tauto.
Qed.

(** X10.  The registry volume is looked up by its name alone, without any
    label; a volume found is used as it is and none is created; and a
    volume is created only after a look-up that found none.  Without a
    volume name there is neither look-up nor creation. *)
Theorem createRegistry_reuses_volume (w : W) (spec : ClusterSpec) :
  res_out (run h w getRegistryContainer) = Returned ("", None) ->
  let tr := res_trace (run h w (createRegistry k3dNetworkName spec)) in
  (forall v l, In (v, l) (volumeLookups tr) -> v = RegistryVolume spec /\ l = ∅) /\
  (volumesFound tr <> [] -> createdVolumes tr = []) /\
  (forall v l, In (v, l) (volumeSpecs tr) ->
               volumeLookups tr = [(v, ∅)] /\ volumesFound tr = []) /\
  (RegistryVolume spec = "" -> volumeLookups tr = [] /\ createdVolumes tr = []).
Proof.
  intros Hloc tr.
  destruct (createRegistry_creation_summary w spec Hloc)
    as (_ & Hlook & Hvol & Hfound & Hnone & _).
  split; [|split; [|split]].
  - intros v l Hin. destruct (Hlook v l Hin) as (? & _ & ?). split; assumption.
  - exact Hfound.
  - intros v l Hin. destruct (Hvol v l Hin) as (_ & _ & ? & ?). split; assumption.
  - exact Hnone.
Qed.

(** X11.  [createRegistry] removes nothing: on no path does it remove a
    container, delete a volume or disconnect a network, so that what a
    failed creation has made (a volume, a container that did not start)
    is left on the host. *)
Theorem createRegistry_never_removes (w : W) (spec : ClusterSpec) :
  let tr := res_trace (run h w (createRegistry k3dNetworkName spec)) in
  removedContainers tr = [] /\ deletedVolumes tr = [] /\ disconnections tr = [].
Proof.
  intros tr. subst tr. name_run.
  unfold createRegistry, getRegistryContainer, createNewRegistry.
  destruct spec as [cn en ca rn rp rv rf ar hcfg]. cbn [RegistryVolume RegistryCacheEnabled
    AutoRestart RegistryName RegistryPort spec_HostConfig ClusterName].
  run_cases h; repeat split.
Qed.

(** X12.  When the look-up fails, [createRegistry] returns its error as it
    is and asks the runtime for no change. *)
Theorem createRegistry_lookup_failure (w : W) (spec : ClusterSpec) (s : string) (e : error) :
  res_out (run h w getRegistryContainer) = Returned (s, Some e) ->
  let r := run h w (createRegistry k3dNetworkName spec) in
  res_out r = Returned ("", Some e) /\ mutations (res_trace r) = [].
Proof.
  intros Hloc r. subst r. unfold createRegistry.
  pose proof (getRegistryContainer_lookupOnly h w) as HL.
  rewrite run_bind, Hloc.
  destruct (run h w getRegistryContainer) as [out wL trL]. simpl in *.
  split; [reflexivity|].
  unfold mutations. rewrite app_nil_r.
  apply collect_lookupOnly; [lookup_free | exact HL].
Qed.

(** X13.  When no call fails on the creation path, the identifier returned
    is the one [createContainer] answered, and the container started is
    that one. *)
Theorem createRegistry_starts_what_it_created (w : W) (spec : ClusterSpec) :
  res_out (run h w getRegistryContainer) = Returned ("", None) ->
  let r := run h w (createRegistry k3dNetworkName spec) in
  failures (res_trace r) = [] ->
  exists id, res_out r = Returned (id, None) /\
             containersMade (res_trace r) = [id] /\
             startedContainers (res_trace r) = [id].
Proof.
  intros Hloc r Hf.
  apply (createRegistry_creation_summary w spec Hloc). exact Hf.
Qed.

(** X14.  A failure of the port specification, of the merge or of the
    volume look-up comes before anything is asked of the runtime: no
    volume and no container has been created. *)
Theorem createRegistry_early_failure_changes_nothing
    (w : W) (spec : ClusterSpec) (e : error) :
  res_out (run h w getRegistryContainer) = Returned ("", None) ->
  let tr := res_trace (run h w (createRegistry k3dNetworkName spec)) in
  failureOf "CreatePublishedPorts" tr = Some e \/
  failureOf "mergo.Merge" tr = Some e \/
  failureOf "getVolume" tr = Some e ->
  mutations tr = [].
Proof.
  intros Hloc tr Hf.
  destruct (createRegistry_creation_summary w spec Hloc) as (_ & _ & _ & _ & _ & _ & Hearly).
  exact (Hearly e Hf).
Qed.

(** X15.  On the reuse branch only the cluster name and the registry name
    of the spec are used: two specs that agree on them run alike, whatever
    their ports, volumes, cache flags and host configurations. *)
Theorem createRegistry_reuse_ignores_rest_of_spec
    (w : W) (spec spec' : ClusterSpec) (cid : string) :
  res_out (run h w getRegistryContainer) = Returned (cid, None) ->
  cid <> "" ->
  ClusterName spec = ClusterName spec' ->
  RegistryName spec = RegistryName spec' ->
  run h w (createRegistry k3dNetworkName spec) = run h w (createRegistry k3dNetworkName spec').
Proof.
  intros Hloc Hne Hc Hr. unfold createRegistry.
  rewrite !run_bind, Hloc, Hc, Hr.
  destruct (decide (cid ≠ "")); [reflexivity|contradiction].
Qed.

End Creation.

Lemma insert_size_ne_0 (m : gmap string Mirror) (k : string) (x : Mirror) :
  size (<[k := x]> m) <> 0%nat.
Proof.
  intros Hs%map_size_empty_inv. exact (insert_non_empty m k x Hs).
Qed.

(** X18.  The block that adds the mirrors is idempotent: applied to its own
    result it changes nothing, so that a document written by k3d and used
    as the base file of the same spec is written back as it is. *)
Theorem addRegistryMirrors_idempotent (spec : ClusterSpec) (base : Registry) :
  addRegistryMirrors spec (addRegistryMirrors spec base) = addRegistryMirrors spec base.
Proof.
  unfold addRegistryMirrors.
  destruct (RegistryEnabled spec); [|reflexivity].
  cbn [Mirrors Configs Auths].
  set (m0 := if decide (lenMap (Mirrors base) = 0%nat) then ∅
             else default ∅ (Mirrors base)).
  f_equal. f_equal.
  destruct (RegistryCacheEnabled spec); cbn [lenMap];
    rewrite decide_False by apply insert_size_ne_0;
    unfold default; cbn [from_option id].
  - apply map_eq. intros k. rewrite !lookup_insert. repeat case_decide; reflexivity.
  - apply insert_insert_eq.
Qed.

Lemma insert_size_le (m : gmap string Mirror) (k : string) (x : Mirror) :
  (size m <= size (<[k := x]> m) <= S (size m))%nat.
Proof.
  destruct (m !! k) eqn:Hk.
  - rewrite map_size_insert_Some by eauto. lia.
  - rewrite map_size_insert_None by assumption. lia.
Qed.

(** X19.  With the registry enabled the mirrors of the document are never a
    nil map, and their keys are those of the base document together with
    [R:P], and with [docker.io] when the cache is enabled: at most two
    entries more than the base document has. *)
Theorem addRegistryMirrors_keys (spec : ClusterSpec) (base : Registry) :
  RegistryEnabled spec = true ->
  exists m,
    Mirrors (addRegistryMirrors spec base) = Some m /\
    dom m = dom (default ∅ (Mirrors base))
            ∪ {[ RegistryName spec +:+ ":" +:+ Itoa (RegistryPort spec) ]}
            ∪ (if RegistryCacheEnabled spec then {[ "docker.io" ]} else ∅) /\
    (lenMap (Mirrors base) <= size m <= lenMap (Mirrors base) + 2)%nat.
Proof.
  intros He. unfold addRegistryMirrors. rewrite He. cbn [Mirrors].
  eexists. split; [reflexivity|].
  assert (Hm : (if decide (lenMap (Mirrors base) = 0%nat) then ∅
                else default ∅ (Mirrors base)) = default (∅ : gmap string Mirror) (Mirrors base)).
  { case_decide as Hlen; [|reflexivity].
    destruct (Mirrors base) as [m0|]; [|reflexivity].
    simpl in *. symmetry. apply map_size_empty_inv, Hlen. }
  rewrite Hm.
  assert (Hl : lenMap (Mirrors base) = size (default (∅ : gmap string Mirror) (Mirrors base))).
  { destruct (Mirrors base); [reflexivity|]. simpl. rewrite map_size_empty. reflexivity. }
  rewrite Hl. set (m0 := default ∅ (Mirrors base)).
  set (ext := RegistryName spec +:+ ":" +:+ Itoa (RegistryPort spec)).
  set (own := {| Endpoints := ["http://" +:+ (RegistryName spec +:+ ":" +:+ Itoa defaultRegistryPort)] |}).
  destruct (RegistryCacheEnabled spec).
  - split.
    + rewrite !dom_insert_L. unfold defaultDockerHubAddress. apply set_eq. intros x.
      rewrite !elem_of_union, !elem_of_singleton. tauto.
    + pose proof (insert_size_le m0 ext own).
      pose proof (insert_size_le (<[ext := own]> m0) defaultDockerHubAddress own). lia.
  - split.
    + rewrite !dom_insert_L. apply set_eq. intros x.
      rewrite !elem_of_union, !elem_of_singleton, elem_of_empty. tauto.
    + pose proof (insert_size_le m0 ext own). lia.
Qed.

Section MirrorFile.

Context {W : Type} (h : handler W).
Variable Quote : string -> string.


(** X17.  Without a base file nothing is read, and the document written is
    made of the registry's own mirrors only: none when the registry is not
    enabled, the entry of [R:P] when it is, and that of [docker.io] beside
    it with the cache. *)
Theorem writeRegistries_without_base_file (w : W) (spec : ClusterSpec) (ID : string) :
  RegistriesFile spec = "" ->
  let tr := res_trace (run h w (writeRegistriesConfigInContainer Quote spec ID)) in
  let ext := RegistryName spec +:+ ":" +:+ Itoa (RegistryPort spec) in
  let own := {| Endpoints := ["http://" +:+ RegistryName spec +:+ ":5000"] |} in
  filesRead tr = [] /\
  emitted tr =
    [{| Mirrors := if RegistryEnabled spec
                   then Some (if RegistryCacheEnabled spec
                              then <["docker.io" := own]> (<[ext := own]> ∅)
                              else <[ext := own]> ∅)
                   else None;
        Configs := None;
        Auths := None |}].
Proof.
  intros Hfile tr ext own. subst tr ext own. name_run.
  unfold writeRegistriesConfigInContainer, loadBaseRegistries. rewrite Hfile.
  cbn [String.length Nat.ltb Nat.leb].
  run_cases h; (split; [reflexivity|]).
  all: unfold emitted, addRegistryMirrors; simpl.
  all: destruct (RegistryEnabled spec), (RegistryCacheEnabled spec); reflexivity.
Qed.

End MirrorFile.

Section Teardown.

Context {W : Type} (h : handler W).
Variable k3dNetworkName : string -> string.

(** X20.  The teardown creates nothing: on no path does it create or start
    a container, create a volume, connect a network or copy a file. *)
Theorem disconnect_never_creates (w : W) (name : string) (keepRegistryVolume : bool) :
  let tr := res_trace (run h w (disconnectRegistryFromNetwork k3dNetworkName name
                                                              keepRegistryVolume)) in
  createdContainers tr = [] /\ createdVolumes tr = [] /\
  startedContainers tr = [] /\ connections tr = [] /\ copies tr = [].
Proof.
  intros tr. subst tr. name_run.
  unfold disconnectRegistryFromNetwork, getRegistryContainer, removeRegistry.
  run_cases h; repeat split.
Qed.

(** X21.  Once no network remains, the removal of the container is asked
    for whether or not the mounted volume could be detected, and the
    deletion of the volume does not depend on the removal having worked:
    the volume [v] read at [/var/lib/registry] is deleted exactly when it
    has a name, the look-up under the ownership labels answered a volume,
    and the caller did not ask to keep it.  Without a volume name no
    volume is looked up and the teardown succeeds. *)
Theorem disconnect_removal_is_best_effort
    (w : W) (name : string) (keepRegistryVolume : bool) (cid : string) :
  res_out (run h w getRegistryContainer) = Returned (cid, None) ->
  cid <> "" ->
  let r := run h w (disconnectRegistryFromNetwork k3dNetworkName name keepRegistryVolume) in
  let tr := res_trace r in
  remainingNetworks tr = [(cid, [])] ->
  removedContainers tr = [cid] /\
  exists v,
    mountedVolumes tr = [(cid, "/var/lib/registry", v)] /\
    (v = "" -> volumeLookups tr = [] /\ res_out r = Returned None) /\
    (v <> "" -> volumeLookups tr = [(v, defaultRegistryVolumeLabels)]) /\
    (deletedVolumes tr = [v] <->
     v <> "" /\ volumesFound tr = [(v, defaultRegistryVolumeLabels)] /\
     keepRegistryVolume = false) /\
    (deletedVolumes tr = [] \/ deletedVolumes tr = [v]).
Proof.
  intros Hloc Hne r tr. subst tr r. unfold disconnectRegistryFromNetwork.
  after_lookup h w cid Hloc.
  destruct (decide (cid = "")) as [Hn|_]; [contradiction|].
  unfold removeRegistry.
  run_cases h; lengths; simpl; intros Hrem; try discriminate Hrem.
  all: split; [reflexivity|]; eexists; split; [reflexivity|].
  all: repeat split; intros; simpl in *; try congruence; try tauto.
  all: destruct H as (? & H & ?);
    repeat match goal with o : option Volume |- _ => destruct o end;
    simpl in H; congruence.
Qed.

End Teardown.

(** * The further properties on concrete inputs *)

(** X2 at a host whose listing fails. *)
Lemma getRegistryContainer_errors_witness :
  let r := run docker (withFaults ["docker.ContainerList"] lastWorld) getRegistryContainer in
  exists err, res_out r = Returned ("", Some err) /\
              Error err = " Couldn't list containers: "
                          +:+ Error (errorString "docker.ContainerList failed") /\
              Unwrap err = Some (errorString "docker.ContainerList failed").
Proof.
  apply (getRegistryContainer_errors docker (withFaults ["docker.ContainerList"] lastWorld)).
  vm_compute. reflexivity.
Defined.

(** X3 at the host of one registry. *)
Lemma getRegistryContainer_first_match_witness :
  let r := run docker lastWorld getRegistryContainer in
  exists containers,
    listAnswers (res_trace r) = [containers] /\
    res_out r = Returned (match containers with
                          | [] => ""
                          | c :: _ => ID c
                          end, None).
Proof.
  apply (getRegistryContainer_first_match docker lastWorld).
  vm_compute. reflexivity.
Defined.

(** The look-up finds the registry and returns its identifier. *)
Example getRegistryContainer_finds_registry :
  res_out (run docker lastWorld getRegistryContainer) = Returned ("cafe01", None) /\
  res_out (run docker emptyWorld getRegistryContainer) = Returned ("", None).
Proof. vm_compute. split; reflexivity. Qed.

(** A creation does call [createContainer]. *)
Lemma creation_creates : containerSpecs (res_trace creation) <> [].
Proof. intros H. vm_compute in H. discriminate H. Qed.

Lemma creation_creates_volume : volumeSpecs (res_trace creation) <> [].
Proof. intros H. vm_compute in H. discriminate H. Qed.

Lemma creation_on_empty_host :
  res_out (run docker emptyWorld getRegistryContainer) = Returned ("", None).
Proof. vm_compute. reflexivity. Qed.

(** X4 at the creation for [fullSpec]. *)
Lemma createRegistry_container_identity_witness :
  Forall (fun c : Config * HostConfig * NetworkingConfig * string =>
            c.2 = "k3d-registry" /\
            Image c.1.1.1 = "registry:2" /\
            Hostname c.1.1.1 = "registry.local" /\
            defaultRegistryContainerLabels ⊆ cfg_Labels c.1.1.1 /\
            cfg_Labels c.1.1.1 !! "hostname" = Some "registry.local" /\
            (exists now, clock (res_trace creation) = [now] /\
                         cfg_Labels c.1.1.1 !! "created" = Some now) /\
            dom (cfg_Labels c.1.1.1) = {[ "app"; "component"; "created"; "hostname" ]})
         (containerSpecs (res_trace creation)).
Proof.
  apply Forall_forall. intros [[[cfg hc] nc] name] Hin%list_elem_of_In.
  apply (createRegistry_container_identity docker refNetworkName emptyWorld fullSpec
           cfg hc nc name creation_on_empty_host Hin).
Defined.

(** X5 at the creation for [fullSpec]. *)
Lemma createRegistry_network_endpoint_witness :
  Forall (fun c : Config * HostConfig * NetworkingConfig * string =>
            EndpointsConfig c.1.2 = {[ "k3d-dev" := {| Aliases := ["registry.local"] |} ]} /\
            connections (res_trace creation) = [])
         (containerSpecs (res_trace creation)).
Proof.
  apply Forall_forall. intros [[[cfg hc] nc] name] Hin%list_elem_of_In.
  apply (createRegistry_network_endpoint docker refNetworkName emptyWorld fullSpec
           cfg hc nc name creation_on_empty_host Hin).
Defined.

(** X6 at the creation for [fullSpec], whose cache is enabled. *)
Lemma createRegistry_cache_environment_witness :
  Forall (fun c : Config * HostConfig * NetworkingConfig * string =>
            Env c.1.1.1 = ["REGISTRY_PROXY_REMOTEURL=https://registry-1.docker.io"])
         (containerSpecs (res_trace creation)).
Proof.
  apply Forall_forall. intros [[[cfg hc] nc] name] Hin%list_elem_of_In.
  apply (createRegistry_cache_environment docker refNetworkName emptyWorld fullSpec
           cfg hc nc name creation_on_empty_host Hin).
Defined.

(** X7 at the creation for [fullSpec]: the bind [/srv/data:/data] of the
    override is gone. *)
Lemma createRegistry_binds_registry_volume_witness :
  Forall (fun c : Config * HostConfig * NetworkingConfig * string =>
            Binds c.1.1.2 = ["regvol" +:+ ":" +:+ defaultRegistryMountPath])
         (containerSpecs (res_trace creation)).
Proof.
  apply Forall_forall. intros [[[cfg hc] nc] name] Hin%list_elem_of_In.
  apply (createRegistry_binds_registry_volume docker refNetworkName emptyWorld fullSpec
           cfg hc nc name creation_on_empty_host Hin).
  discriminate.
Defined.

(** X8 at the creation for [fullSpec], whose override names the policy
    [on-failure]. *)
Lemma createRegistry_restart_policy_witness :
  Forall (fun c : Config * HostConfig * NetworkingConfig * string =>
            exists baseline m,
              merged (res_trace creation) = [(baseline, spec_HostConfig fullSpec, m)] /\
              rp_MaximumRetryCount (hc_RestartPolicy c.1.1.2)
              = rp_MaximumRetryCount (hc_RestartPolicy m) /\
              rp_Name (hc_RestartPolicy c.1.1.2) = "unless-stopped")
         (containerSpecs (res_trace creation)).
Proof.
  apply Forall_forall. intros [[[cfg hc] nc] name] Hin%list_elem_of_In.
  apply (createRegistry_restart_policy docker refNetworkName emptyWorld fullSpec
           cfg hc nc name creation_on_empty_host Hin).
Defined.

(** The container created for [fullSpec], in figures. *)
Example creation_of_fullSpec :
  (fun c : Config * HostConfig * NetworkingConfig * string =>
     (Binds c.1.1.2, hc_RestartPolicy c.1.1.2, Privileged c.1.1.2, Init c.1.1.2))
    <$> containerSpecs (res_trace creation)
  = [(["regvol:/var/lib/registry"],
      {| rp_Name := "unless-stopped"; rp_MaximumRetryCount := 3 |}, true, Some true)] /\
  res_out creation = Returned ("id-k3d-registry", None).
Proof. vm_compute. split; reflexivity. Qed.

(** X9 at the creation for [fullSpec]. *)
Lemma createRegistry_volume_labels_witness :
  Forall (fun vl : string * gmap string string =>
            vl.1 = "regvol" /\
            defaultRegistryVolumeLabels ⊆ vl.2 /\
            vl.2 !! "registry-name" = Some "registry.local" /\
            vl.2 !! "registry-port" = Some (Itoa 5000) /\
            dom vl.2 = {[ "app"; "component"; "managed"; "registry-name"; "registry-port" ]})
         (volumeSpecs (res_trace creation)).
Proof.
  apply Forall_forall. intros [v labels] Hin%list_elem_of_In.
  apply (createRegistry_volume_labels docker refNetworkName emptyWorld fullSpec
           v labels creation_on_empty_host Hin).
Defined.

(** X10 at the creation for [fullSpec]. *)
Lemma createRegistry_reuses_volume_witness :
  let tr := res_trace creation in
  (forall v l, In (v, l) (volumeLookups tr) -> v = "regvol" /\ l = ∅) /\
  (volumesFound tr <> [] -> createdVolumes tr = []) /\
  (forall v l, In (v, l) (volumeSpecs tr) ->
               volumeLookups tr = [(v, ∅)] /\ volumesFound tr = []) /\
  (RegistryVolume fullSpec = "" -> volumeLookups tr = [] /\ createdVolumes tr = []).
Proof.
  apply (createRegistry_reuses_volume docker refNetworkName emptyWorld fullSpec
           creation_on_empty_host).
Defined.

(** A volume of that name on the host is used as it is, labels or not. *)
Example createRegistry_uses_existing_volume :
  let r := run docker (setVolumes emptyWorld [mkVolume "regvol" ∅])
               (createRegistry refNetworkName fullSpec) in
  res_out r = Returned ("id-k3d-registry", None) /\
  createdVolumes (res_trace r) = [] /\
  w_volumes (res_world r) = [mkVolume "regvol" ∅].
Proof. vm_compute. repeat split; reflexivity. Qed.

(** X12 at a host whose listing fails. *)
Lemma createRegistry_lookup_failure_witness :
  let r := run docker (withFaults ["docker.ContainerList"] emptyWorld)
               (createRegistry refNetworkName fullSpec) in
  res_out r = Returned
    ("", Some (Errorf_w " Couldn't list containers: "
                        (errorString "docker.ContainerList failed"))) /\
  mutations (res_trace r) = [].
Proof.
  apply (createRegistry_lookup_failure docker refNetworkName
           (withFaults ["docker.ContainerList"] emptyWorld) fullSpec "").
  vm_compute. reflexivity.
Defined.

(** X13 at the creation for [fullSpec]. *)
Lemma createRegistry_starts_what_it_created_witness :
  exists id, res_out creation = Returned (id, None) /\
             containersMade (res_trace creation) = [id] /\
             startedContainers (res_trace creation) = [id].
Proof.
  apply (createRegistry_starts_what_it_created docker refNetworkName emptyWorld fullSpec
           creation_on_empty_host).
  vm_compute. reflexivity.
Defined.

(** X14 at a merge that fails. *)
Lemma createRegistry_early_failure_changes_nothing_witness :
  mutations (res_trace (run docker (withFaults ["mergo.Merge"] emptyWorld)
                            (createRegistry refNetworkName fullSpec))) = [].
Proof.
  apply (createRegistry_early_failure_changes_nothing docker refNetworkName
           (withFaults ["mergo.Merge"] emptyWorld) fullSpec
           (errorString "mergo.Merge failed")).
  - vm_compute. reflexivity.
  - right. left. vm_compute. reflexivity.
Defined.

(** A failure after the volume was created leaves the volume behind. *)
Example createRegistry_leaves_volume_behind :
  let r := run docker (withFaults ["createContainer"] emptyWorld)
               (createRegistry refNetworkName fullSpec) in
  createdVolumes (res_trace r) = ["regvol"] /\
  deletedVolumes (res_trace r) = [] /\
  vol_Name <$> w_volumes (res_world r) = ["regvol"] /\
  w_containers (res_world r) = [].
Proof. vm_compute. repeat split; reflexivity. Qed.

(** X15 at the registry that serves [a] and [b], for two specs of the
    cluster [dev]. *)
Lemma createRegistry_reuse_ignores_rest_of_spec_witness :
  run docker sharedWorld (createRegistry refNetworkName refSpec)
  = run docker sharedWorld (createRegistry refNetworkName otherPortSpec).
Proof.
  apply (createRegistry_reuse_ignores_rest_of_spec docker refNetworkName sharedWorld
           refSpec otherPortSpec "cafe01").
  - vm_compute. reflexivity.
  - discriminate.
  - reflexivity.
  - reflexivity.
Defined.

(** X17 at [refSpec], which names no base file. *)
Lemma writeRegistries_without_base_file_witness :
  let tr := res_trace (run docker emptyWorld
                           (writeRegistriesConfigInContainer refQuote refSpec "node-1")) in
  let ext := RegistryName refSpec +:+ ":" +:+ Itoa (RegistryPort refSpec) in
  let own := {| Endpoints := ["http://" +:+ RegistryName refSpec +:+ ":5000"] |} in
  filesRead tr = [] /\
  emitted tr =
    [{| Mirrors := if RegistryEnabled refSpec
                   then Some (if RegistryCacheEnabled refSpec
                              then <["docker.io" := own]> (<[ext := own]> ∅)
                              else <[ext := own]> ∅)
                   else None;
        Configs := None;
        Auths := None |}].
Proof.
  apply (writeRegistries_without_base_file docker refQuote emptyWorld refSpec "node-1").
  reflexivity.
Defined.

(** The copy made for [fileSpec], and the error of a copy that fails. *)
Example writeRegistries_copies_once :
  (fun c : string * string * list Byte.byte => (c.1.1, c.1.2))
    <$> copies (res_trace (run docker fileWorld
                               (writeRegistriesConfigInContainer refQuote fileSpec "node-1")))
  = [("node-1", "/etc/rancher/k3s/registries.yaml")] /\
  res_out (run docker (withFaults ["copyToContainer"] fileWorld)
               (writeRegistriesConfigInContainer refQuote fileSpec "node-1"))
  = Returned (Some (errorString "copyToContainer failed")) /\
  copies (res_trace (run docker (withFaults ["yaml.Unmarshal"] fileWorld)
                         (writeRegistriesConfigInContainer refQuote fileSpec "node-1"))) = [].
Proof. vm_compute. repeat split; reflexivity. Qed.

(** X19 at the base document of [fileSpec]. *)
Lemma addRegistryMirrors_keys_witness :
  exists m,
    Mirrors (addRegistryMirrors fileSpec baseDocument) = Some m /\
    dom m = dom (default ∅ (Mirrors baseDocument))
            ∪ {[ RegistryName fileSpec +:+ ":" +:+ Itoa (RegistryPort fileSpec) ]}
            ∪ (if RegistryCacheEnabled fileSpec then {[ "docker.io" ]} else ∅) /\
    (lenMap (Mirrors baseDocument) <= size m <= lenMap (Mirrors baseDocument) + 2)%nat.
Proof.
  apply (addRegistryMirrors_keys fileSpec baseDocument). reflexivity.
Defined.

(** X21 at the last cluster leaving, and when the removal of the container
    fails: the volume is deleted all the same. *)
Lemma disconnect_removal_is_best_effort_witness :
  let r := teardown (withFaults ["removeContainer"] lastWorld) "a" false in
  let tr := res_trace r in
  removedContainers tr = ["cafe01"] /\
  exists v,
    mountedVolumes tr = [("cafe01", "/var/lib/registry", v)] /\
    (v = "" -> volumeLookups tr = [] /\ res_out r = Returned None) /\
    (v <> "" -> volumeLookups tr = [(v, defaultRegistryVolumeLabels)]) /\
    (deletedVolumes tr = [v] <->
     v <> "" /\ volumesFound tr = [(v, defaultRegistryVolumeLabels)] /\ false = false) /\
    (deletedVolumes tr = [] \/ deletedVolumes tr = [v]).
Proof.
  apply (disconnect_removal_is_best_effort docker refNetworkName
           (withFaults ["removeContainer"] lastWorld) "a" false "cafe01").
  - vm_compute. reflexivity.
  - discriminate.
  - vm_compute. reflexivity.
Defined.

(** The removal fails, the volume goes: the container is still on the host
    and its volume is not. *)
Example teardown_removal_fails :
  let r := teardown (withFaults ["removeContainer"] lastWorld) "a" false in
  res_out r = Returned None /\
  deletedVolumes (res_trace r) = ["regvol"] /\
  hc_ID <$> w_containers (res_world r) = ["cafe01"] /\
  w_volumes (res_world r) = [].
Proof. vm_compute. repeat split; reflexivity. Qed.
